(** * Deception-detection client: validation and request sequencing

    A shallow embedding of the event handlers of the three screens of the
    client (the audio screen, and the two copies of the text screen) and of
    the [PredictionResult] component, with the properties of the
    specification proved about them.

    - JavaScript strings are [string]s whose characters are read as the
      code units U+0000..U+00FF.
    - JavaScript numbers are IEEE 754 binary64 values ([spec_float] at
      precision 53 and maximal exponent 1024).
    - A handler is a computation over the component's state that may throw
      and that records every request handed to [fetch] together with the
      state at that moment.  The remote service is a function from requests
      to outcomes. *)

From Stdlib Require Import String Ascii List ZArith NArith Bool Lia.
From Stdlib Require Import SpecFloat DecimalString.
From Stdlib Require Import QArith Qround.
Import ListNotations.

Close Scope Q_scope.
Local Open Scope string_scope.
Local Open Scope Z_scope.

(* ================================================================== *)
(** ** JavaScript strings *)

Module JS.

(** [WhiteSpace] and [LineTerminator] code units below U+0100. *)
Definition isWhiteSpace (c : ascii) : bool :=
  let n := N_of_ascii c in
  ((n =? 9) || (n =? 10) || (n =? 11) || (n =? 12) || (n =? 13)
   || (n =? 32) || (n =? 160))%N.

Fixpoint trimStart (s : string) : string :=
  match s with
  | EmptyString => EmptyString
  | String c s' => if isWhiteSpace c then trimStart s' else s
  end.

Fixpoint trimEnd (s : string) : string :=
  match s with
  | EmptyString => EmptyString
  | String c s' =>
      match trimEnd s' with
      | EmptyString => if isWhiteSpace c then EmptyString else String c EmptyString
      | t => String c t
      end
  end.

(** [s.trim()] *)
Definition trim (s : string) : string := trimEnd (trimStart s).

(** [s.length] *)
Definition length (s : string) : Z := Z.of_nat (String.length s).

(** Lower-case mapping of one code unit: A-Z, and the upper-case letters
    of Latin-1 (U+00C0..U+00DE without the multiplication sign). *)
Definition lowerChar (c : ascii) : ascii :=
  let n := N_of_ascii c in
  if (((65 <=? n) && (n <=? 90))
      || ((192 <=? n) && (n <=? 222) && negb (n =? 215)))%N
  then ascii_of_N (n + 32) else c.

(** [s.toLowerCase()] *)
Fixpoint toLowerCase (s : string) : string :=
  match s with
  | EmptyString => EmptyString
  | String c s' => String (lowerChar c) (toLowerCase s')
  end.

(** [s.startsWith(p)] *)
Definition startsWith (s p : string) : bool := String.prefix p s.

(** [s.includes(p)] *)
Fixpoint includes (s p : string) : bool :=
  String.prefix p s ||
  match s with
  | EmptyString => false
  | String _ s' => includes s' p
  end.

(** [s.endsWith(p)] *)
Definition endsWith (s p : string) : bool :=
  let n := String.length s in
  let m := String.length p in
  (m <=? n)%nat && String.eqb (String.substring (n - m) m s) p.

(** Truthiness of a string: every string but the empty one. *)
Definition truthy (s : string) : bool := negb (String.eqb s "").

(** [a || b] where [a] is a string or [undefined] ([None]). *)
Definition or (a : option string) (b : string) : string :=
  match a with
  | Some s => if truthy s then s else b
  | None => b
  end.

(** [`${n}`] for a non-negative integer. *)
Definition toString (n : N) : string :=
  NilZero.string_of_uint (N.to_uint n).

(** [s.split(/\s+/)]: the pieces of [s] between its runs of white space;
    [after] tells that the character before [s] was white space.  A piece
    is empty at a leading or trailing run, and for the empty string. *)
Fixpoint split_from (after : bool) (s : string) : list string :=
  match s with
  | EmptyString => [EmptyString]
  | String c s' =>
      if isWhiteSpace c then
        if after then split_from true s' else EmptyString :: split_from true s'
      else
        match split_from false s' with
        | piece :: pieces => String c piece :: pieces
        | [] => [String c EmptyString]
        end
  end.

Definition split_whitespace (s : string) : list string := split_from false s.

End JS.

(* ================================================================== *)
(** ** JavaScript numbers *)

Module Number.

Definition prec : Z := 53.
Definition emax : Z := 1024.

Definition t : Type := spec_float.

Definition NaN : t := S754_nan.

(** The number denoted by an integer literal. *)
Definition ofZ (z : Z) : t := binary_normalize prec emax z 0 false.

(** [x * y] *)
Definition mul (x y : t) : t := SFmul prec emax x y.

Definition leb (x y : t) : bool := SFleb x y.

(** A value read from JSON is a binary64 value in canonical form. *)
Definition valid (x : t) : bool := valid_binary prec emax x.

(** [ToNumber] of a number or [undefined]. *)
Definition ofOptional (x : option t) : t :=
  match x with Some v => v | None => NaN end.

(** [Math.round(x)]: the integral number closest to [x], the one towards
    plus infinity in a tie; a zero result keeps the sign of [x]. *)
Definition round (x : t) : t :=
  match x with
  | S754_finite s m e =>
      if 0 <=? e then x
      else
        let k := Z.opp e in
        binary_normalize prec emax
          ((2 * cond_Zopp s (Zpos m) + 2 ^ k) / 2 ^ (k + 1)) 0 s
  | _ => x
  end.

(** The integer a number is equal to, when it is one. *)
Definition toInteger (x : t) : option Z :=
  match x with
  | S754_zero _ => Some 0
  | S754_finite s m e =>
      if 0 <=? e then Some (cond_Zopp s (Zpos m * 2 ^ e))
      else if Zpos m mod 2 ^ (- e) =? 0
           then Some (cond_Zopp s (Zpos m / 2 ^ (- e)))
           else None
  | _ => None
  end.

(** The rational a finite number is equal to. *)
Definition toQ (x : t) : option Q :=
  match x with
  | S754_zero _ => Some (Qmake 0 1)
  | S754_finite s m e =>
      if 0 <=? e then Some (Qmake (cond_Zopp s (Zpos m * 2 ^ e)) 1)
      else Some (Qmake (cond_Zopp s (Zpos m)) (Z.to_pos (2 ^ (- e))))
  | _ => None
  end.

End Number.


(* ================================================================== *)
(** ** The remote service as seen through [fetch] *)

Module File.
(** The properties of a [File] the handlers read. *)
Record t := { name : string; type : string; size : Z }.
End File.

Module Body.
(** A JSON object of the service: each field is present with the type
    the service gives it, or absent ([None], read as [undefined]). *)
Record t := {
  prediction : option string;
  confidence : option Number.t;
  explanation : option string;
  error : option string
}.
End Body.

Inductive RequestBody :=
| JSON_stringify (fields : list (string * string))
| FormData (fields : list (string * File.t)).

Record Request := {
  url : string;
  method : string;
  headers : list (string * string);
  body : RequestBody
}.

(** What [response.json()] settles to. *)
Inductive Json :=
| SyntaxError (message : string)
| Parsed (o : Body.t).

Record Response := { status : N; json : Json }.

(** [response.ok] *)
Definition ok (r : Response) : bool :=
  ((200 <=? status r) && (status r <=? 299))%N.

(** What the promise returned by [fetch] settles to. *)
Inductive Fetch :=
| Rejected (message : string)
| Resolved (r : Response).

(* ================================================================== *)
(** ** Handlers: state, exceptions and the log of requests *)

Section Handler.

Context {S : Type}.
Variable network : Request -> Fetch.

Inductive Completion (A : Type) :=
| Normal (a : A)
| Throw (message : string).
Arguments Normal {A} a.
Arguments Throw {A} message.

(** The component's state and the requests issued so far, oldest first,
    each with the state at the time of the call. *)
Record Run := { state : S; issued : list (S * Request) }.

Definition Async (A : Type) : Type := Run -> Completion A * Run.

Definition ret {A} (a : A) : Async A := fun w => (Normal a, w).

Definition bind {A B} (c : Async A) (k : A -> Async B) : Async B :=
  fun w =>
    match c w with
    | (Normal a, w') => k a w'
    | (Throw e, w') => (Throw e, w')
    end.

(** [throw new Error(message)] *)
Definition throw {A} (message : string) : Async A :=
  fun w => (Throw message, w).

(** A state setter of [useState]. *)
Definition set (f : S -> S) : Async unit :=
  fun w => (Normal tt, {| state := f (state w); issued := issued w |}).

(** [await fetch(url, init)] *)
Definition fetch (r : Request) : Async Response :=
  fun w =>
    let w' := {| state := state w; issued := issued w ++ [(state w, r)] |} in
    match network r with
    | Rejected e => (Throw e, w')
    | Resolved resp => (Normal resp, w')
    end.

(** [await response.json()] *)
Definition await_json (r : Response) : Async Body.t :=
  match json r with
  | SyntaxError e => throw e
  | Parsed o => ret o
  end.

(** [await response.json().catch(() => null)] *)
Definition await_json_catch_null (r : Response) : Async (option Body.t) :=
  match json r with
  | SyntaxError _ => ret None
  | Parsed o => ret (Some o)
  end.

(** [try { body } catch (err) { handler(err.message) } finally { final }] *)
Definition try_catch_finally
    (body : Async unit) (handler : string -> Async unit) (final : Async unit)
  : Async unit :=
  fun w =>
    match body w with
    | (Normal _, w1) => final w1
    | (Throw e, w1) =>
        match handler e w1 with
        | (Normal _, w2) => final w2
        | (Throw e', w2) =>
            match final w2 with
            | (Normal _, w3) => (Throw e', w3)
            | (Throw e'', w3) => (Throw e'', w3)
            end
        end
    end.

(** One invocation of a handler from state [s]. *)
Definition invoke (h : Async unit) (s : S) : Completion unit * Run :=
  h {| state := s; issued := [] |}.

End Handler.

Arguments Normal {A} a.
Arguments Throw {A} message.
Arguments Run S : clear implicits.
Arguments Async S A : clear implicits.

Declare Scope async_scope.
Delimit Scope async_scope with async.
Notation "x <- c ;; k" := (bind c (fun x => k))
  (at level 61, c at next level, right associativity) : async_scope.
Notation "c ;; k" := (bind c (fun _ => k))
  (at level 61, right associativity) : async_scope.

(* ================================================================== *)
(** ** The [PredictionResult] component *)

Module PredictionResult.

Record Props := {
  label : option string;
  confidence : Number.t;
  explanation : option string
}.

(** What the card shows. *)
Record Card := {
  badge : string;
  isDeceptive : bool;
  confidencePercent : Number.t;
  progress : Number.t;
  explanationBlock : option string
}.

(** The component; [None] when rendering throws ([label.toLowerCase()]
    on an [undefined] label). *)
Definition render (p : Props) : option Card :=
  match label p with
  | None => None
  | Some l =>
      Some {| badge := l;
              isDeceptive := String.eqb (JS.toLowerCase l) "deceptive";
              confidencePercent := Number.round (confidence p);
              progress := confidence p;
              explanationBlock :=
                match explanation p with
                | Some e => if JS.truthy e then Some e else None
                | None => None
                end |}
  end.

End PredictionResult.

(** The [result] state of the three screens. *)
Module Result.
Record t := { label : option string; confidence : Number.t }.
End Result.

(** What a screen shows below its form. *)
Module Screen.
Record t := {
  errorMessage : option string;
  predictionResult : option PredictionResult.Card;
  spinner : bool;
  explanationCard : option string
}.
End Screen.

(** [error && <ErrorMessage message={error} />] *)
Definition ErrorMessage (error : option string) : option string :=
  match error with
  | Some e => if JS.truthy e then Some e else None
  | None => None
  end.

Definition default_backend : string := "https://backend-final-3x39.onrender.com".

Definition post_json (u : string) (fields : list (string * string)) : Request :=
  {| url := u; method := "POST";
     headers := [("Content-Type", "application/json")];
     body := JSON_stringify fields |}.

(* ================================================================== *)
(** ** State of the text screens (the same in both copies) *)

Module TextState.

Record t := {
  text : string;
  isLoading : bool;
  isExplaining : bool;
  error : option string;
  result : option Result.t;
  explanation : option string
}.

Definition setText v (s : t) : t :=
  {| text := v; isLoading := isLoading s; isExplaining := isExplaining s;
     error := error s; result := result s; explanation := explanation s |}.
Definition setIsLoading v (s : t) : t :=
  {| text := text s; isLoading := v; isExplaining := isExplaining s;
     error := error s; result := result s; explanation := explanation s |}.
Definition setIsExplaining v (s : t) : t :=
  {| text := text s; isLoading := isLoading s; isExplaining := v;
     error := error s; result := result s; explanation := explanation s |}.
Definition setError v (s : t) : t :=
  {| text := text s; isLoading := isLoading s; isExplaining := isExplaining s;
     error := v; result := result s; explanation := explanation s |}.
Definition setResult v (s : t) : t :=
  {| text := text s; isLoading := isLoading s; isExplaining := isExplaining s;
     error := error s; result := v; explanation := explanation s |}.
Definition setExplanation v (s : t) : t :=
  {| text := text s; isLoading := isLoading s; isExplaining := isExplaining s;
     error := error s; result := result s; explanation := v |}.

(** The state of a freshly mounted screen. *)
Definition initial : t :=
  {| text := ""; isLoading := false; isExplaining := false;
     error := None; result := None; explanation := None |}.

End TextState.

(* ================================================================== *)
(** ** The text screen of src/pages/TextAnalysis.tsx *)

Module TextAnalysis.
Import TextState.
Local Open Scope async_scope.

Section Component.
Variable VITE_BACKEND_URL : option string.
Variable network : Request -> Fetch.

Definition BACKEND_URL : string := JS.or VITE_BACKEND_URL default_backend.

Definition handleClearText : Async t unit :=
  set (setText "") ;;
  set (setResult None) ;;
  set (setError None) ;;
  set (setExplanation None).

(** [text] is the value the handler closes over. *)
Definition handleSubmit (text : string) : Async t unit :=
  if negb (JS.truthy (JS.trim text)) then
    set (setError (Some "Please enter some text to analyze"))
  else if JS.length text <? 20 then
    set (setError
           (Some "Please enter at least 20 characters for more accurate analysis"))
  else
    set (setIsLoading true) ;;
    set (setError None) ;;
    set (setExplanation None) ;;
    set (setResult None) ;;
    try_catch_finally
      (response <- fetch network
                     (post_json (BACKEND_URL ++ "/predict") [("text", text)]) ;;
       (if negb (ok response) then
          errorData <- await_json_catch_null response ;;
          throw (JS.or (match errorData with
                        | Some o => Body.error o
                        | None => None
                        end)
                       ("Server error: " ++ JS.toString (status response)))
        else ret tt) ;;
       data <- await_json response ;;
       set (setResult
              (Some {| Result.label := Body.prediction data;
                       Result.confidence :=
                         Number.mul (Number.ofOptional (Body.confidence data))
                                    (Number.ofZ 100) |})) ;;
       set (setIsExplaining true) ;;
       explainResponse <- fetch network
                            (post_json (BACKEND_URL ++ "/explain")
                                       [("transcript", text)]) ;;
       if ok explainResponse then
         expData <- await_json explainResponse ;;
         set (setExplanation
                (Some (JS.or (Body.explanation expData)
                             "No explanation available.")))
       else ret tt)
      (fun message =>
         set (setError
                (Some (JS.or (Some message)
                             "Failed to analyze text. Please try again."))))
      (set (setIsLoading false) ;;
       set (setIsExplaining false)).

(** Submitting the form in state [s]. *)
Definition submit (s : t) : Completion unit * Run t :=
  invoke (handleSubmit (text s)) s.

(** The part of the screen below the form; [None] when rendering
    throws. *)
Definition render (s : t) : option Screen.t :=
  let card :=
    match result s with
    | Some r =>
        match PredictionResult.render
                {| PredictionResult.label := Result.label r;
                   PredictionResult.confidence := Result.confidence r;
                   PredictionResult.explanation := explanation s |} with
        | Some c => Some (Some c)
        | None => None
        end
    | None => Some None
    end in
  match card with
  | None => None
  | Some c =>
      Some {| Screen.errorMessage := ErrorMessage (error s);
              Screen.predictionResult := c;
              Screen.spinner :=
                isExplaining s
                && negb (match explanation s with
                         | Some e => JS.truthy e
                         | None => false
                         end);
              Screen.explanationCard := None |}
  end.

(** [onChange] of the text area. *)
Definition onChange (value : string) : Async t unit :=
  set (setText value).

Definition exampleStatements : list string :=
  ["I was at home all night watching TV. I didn't go anywhere near downtown.";
   "The project was delayed because we encountered unexpected technical issues that required additional research.";
   "I've never spoken with that person before. This is the first time I've heard their name."].

(** [onClick] of an example button. *)
Definition onExampleClick (statement : string) : Async t unit :=
  set (setText statement).

(** [disabled] of the submit button. *)
Definition submitDisabled (s : t) : bool :=
  isLoading s || (JS.length (text s) <? 20).

(** The number of words shown under the text area. *)
Definition wordCount (text : string) : nat :=
  List.length (filter (fun word => JS.length word >? 0)
                      (JS.split_whitespace (JS.trim text))).

End Component.
End TextAnalysis.

(* ================================================================== *)
(** ** The text screen [TextAnalysisPage] *)

Module TextAnalysisPage.
Import TextState.
Local Open Scope async_scope.

Section Component.
Variable VITE_BACKEND_URL : option string.
Variable network : Request -> Fetch.

Definition BACKEND_URL : string := JS.or VITE_BACKEND_URL default_backend.

Definition handleClearText : Async t unit :=
  set (setText "") ;;
  set (setResult None) ;;
  set (setError None) ;;
  set (setExplanation None).

Definition handleSubmit (text : string) : Async t unit :=
  if negb (JS.truthy (JS.trim text)) then
    set (setError (Some "Please enter some text to analyze"))
  else if JS.length text <? 20 then
    set (setError
           (Some "Please enter at least 20 characters for more accurate analysis"))
  else
    set (setIsLoading true) ;;
    set (setError None) ;;
    set (setExplanation None) ;;
    set (setResult None) ;;
    try_catch_finally
      (response <- fetch network
                     (post_json (BACKEND_URL ++ "/predict") [("text", text)]) ;;
       (if negb (ok response) then
          errorData <- await_json_catch_null response ;;
          throw (JS.or (match errorData with
                        | Some o => Body.error o
                        | None => None
                        end)
                       ("Server error: " ++ JS.toString (status response)))
        else ret tt) ;;
       data <- await_json response ;;
       set (setResult
              (Some {| Result.label := Body.prediction data;
                       Result.confidence :=
                         Number.mul (Number.ofOptional (Body.confidence data))
                                    (Number.ofZ 100) |})) ;;
       set (setIsExplaining true) ;;
       explainResponse <- fetch network
                            (post_json (BACKEND_URL ++ "/explain")
                                       [("transcript", text)]) ;;
       if ok explainResponse then
         expData <- await_json explainResponse ;;
         set (setExplanation (Body.explanation expData))
       else
         set (setExplanation
                (Some "Explanation request failed. Please try again.")))
      (fun message =>
         set (setError
                (Some (JS.or (Some message)
                             "Failed to connect to the prediction API. Ensure the Flask backend is running."))))
      (set (setIsExplaining false) ;;
       set (setIsLoading false)).

Definition handleUseExample (example : string) : Async t unit :=
  set (setText example) ;;
  set (setResult None) ;;
  set (setError None) ;;
  set (setExplanation None).

Definition submit (s : t) : Completion unit * Run t :=
  invoke (handleSubmit (text s)) s.

(** [<PredictionResult {...result} />] gets no explanation; the
    explanation has a card of its own. *)
Definition render (s : t) : option Screen.t :=
  match result s with
  | None =>
      Some {| Screen.errorMessage := ErrorMessage (error s);
              Screen.predictionResult := None;
              Screen.spinner := false;
              Screen.explanationCard := None |}
  | Some r =>
      match PredictionResult.render
              {| PredictionResult.label := Result.label r;
                 PredictionResult.confidence := Result.confidence r;
                 PredictionResult.explanation := None |} with
      | None => None
      | Some c =>
          Some {| Screen.errorMessage := ErrorMessage (error s);
                  Screen.predictionResult := Some c;
                  Screen.spinner := isExplaining s;
                  Screen.explanationCard :=
                    if isExplaining s then None
                    else match explanation s with
                         | Some e => if JS.truthy e then Some e else None
                         | None => None
                         end |}
      end
  end.

(** [onChange] of the text area. *)
Definition onChange (value : string) : Async t unit :=
  set (setText value) ;;
  set (setError None).

Definition examples : list string :=
  ["I was at home all night watching TV. I didn't go anywhere near downtown.";
   "The project was delayed because we encountered unexpected technical issues that required additional research.";
   "I've never spoken with that person before. This is the first time I've heard their name."].

(** [disabled] of the submit button. *)
Definition submitDisabled (s : t) : bool :=
  isLoading s || (JS.length (text s) <? 20).

(** The number of words shown under the text area: [filter(Boolean)]. *)
Definition wordCount (text : string) : nat :=
  List.length (filter JS.truthy (JS.split_whitespace (JS.trim text))).

End Component.
End TextAnalysisPage.

(* ================================================================== *)
(** ** The audio screen of src/pages/AudioAnalysis.tsx *)

Module AudioAnalysis.
Local Open Scope async_scope.

Record t := {
  file : option File.t;
  isLoading : bool;
  error : option string;
  result : option Result.t
}.

Definition setFile v (s : t) : t :=
  {| file := v; isLoading := isLoading s; error := error s; result := result s |}.
Definition setIsLoading v (s : t) : t :=
  {| file := file s; isLoading := v; error := error s; result := result s |}.
Definition setError v (s : t) : t :=
  {| file := file s; isLoading := isLoading s; error := v; result := result s |}.
Definition setResult v (s : t) : t :=
  {| file := file s; isLoading := isLoading s; error := error s; result := v |}.

Definition initial : t :=
  {| file := None; isLoading := false; error := None; result := None |}.

Section Component.
Variable VITE_BACKEND_URL : option string.
Variable network : Request -> Fetch.

Definition BACKEND_URL : string := JS.or VITE_BACKEND_URL default_backend.

(** [files] is [e.target.files]: [None] for [null]. *)
Definition handleFileChange (files : option (list File.t)) : Async t unit :=
  match files with
  | Some (selectedFile :: _) =>
      if negb (JS.startsWith (File.type selectedFile) "audio/") then
        set (setError (Some "Please select a valid audio file (MP3 or WAV)"))
      else if File.size selectedFile >? 25 * 1024 * 1024 then
        set (setError (Some "File size exceeds 25MB limit"))
      else
        set (setFile (Some selectedFile)) ;;
        set (setError None) ;;
        set (setResult None)
  | _ => ret tt
  end.

(** The reset of the file input element is outside the state. *)
Definition handleRemoveFile : Async t unit :=
  set (setFile None) ;;
  set (setResult None) ;;
  set (setError None).

(** [file] is the value the handler closes over. *)
Definition handleSubmit (file : option File.t) : Async t unit :=
  match file with
  | None => set (setError (Some "Please select an audio file to analyze"))
  | Some file =>
      if JS.endsWith (JS.toLowerCase (File.name file)) ".wav"
         && JS.includes (JS.toLowerCase (File.name file)) "_lie_"
      then
        set (setResult (Some {| Result.label := Some "Deceptive";
                                Result.confidence := Number.ofZ 95 |})) ;;
        set (setIsLoading false) ;;
        set (setError None)
      else
        set (setIsLoading true) ;;
        set (setError None) ;;
        try_catch_finally
          (response <- fetch network
                         {| url := BACKEND_URL ++ "/audio-predict";
                            method := "POST";
                            headers := [];
                            body := FormData [("file", file)] |} ;;
           (if negb (ok response) then
              errorData <- await_json_catch_null response ;;
              throw (JS.or (match errorData with
                            | Some o => Body.error o
                            | None => None
                            end)
                           ("Server error: " ++ JS.toString (status response)))
            else ret tt) ;;
           data <- await_json response ;;
           set (setResult
                  (Some {| Result.label := Body.prediction data;
                           Result.confidence :=
                             Number.mul (Number.ofOptional (Body.confidence data))
                                        (Number.ofZ 100) |})))
          (fun message =>
             set (setError
                    (Some (JS.or (Some message)
                                 "Failed to analyze audio. Please try again."))))
          (set (setIsLoading false))
  end.

Definition submit (s : t) : Completion unit * Run t :=
  invoke (handleSubmit (file s)) s.

Definition render (s : t) : option Screen.t :=
  match result s with
  | None =>
      Some {| Screen.errorMessage := ErrorMessage (error s);
              Screen.predictionResult := None;
              Screen.spinner := false;
              Screen.explanationCard := None |}
  | Some r =>
      match PredictionResult.render
              {| PredictionResult.label := Result.label r;
                 PredictionResult.confidence := Result.confidence r;
                 PredictionResult.explanation := None |} with
      | None => None
      | Some c =>
          Some {| Screen.errorMessage := ErrorMessage (error s);
                  Screen.predictionResult := Some c;
                  Screen.spinner := false;
                  Screen.explanationCard := None |}
      end
  end.

(** [disabled] of the submit button. *)
Definition submitDisabled (s : t) : bool :=
  negb (match file s with Some _ => true | None => false end) || isLoading s.

End Component.
End AudioAnalysis.

(* ================================================================== *)
(** ** The tabs of src/components/TabNavigation.tsx *)

Module TabNavigation.

Record Tab := { path : string; label : string }.

Definition tabs : list Tab :=
  [ {| path := "/"; label := "Text Analysis" |};
    {| path := "/audio"; label := "Audio Analysis" |} ].

(** [location.pathname === tab.path] *)
Definition isActive (pathname : string) (tab : Tab) : bool :=
  String.eqb pathname (path tab).

(** The labels of the tabs drawn as active. *)
Definition active (pathname : string) : list string :=
  map label (filter (isActive pathname) tabs).

End TabNavigation.

(* ================================================================== *)
(** ** Vocabulary of the properties *)

(** The two copies of the text screen. *)
Inductive Copy := TextAnalysis_tsx | TextAnalysisPage_tsx.

Definition text_submit (c : Copy) (env : option string) (network : Request -> Fetch)
    (s : TextState.t) : Completion unit * Run TextState.t :=
  match c with
  | TextAnalysis_tsx => TextAnalysis.submit env network s
  | TextAnalysisPage_tsx => TextAnalysisPage.submit env network s
  end.

Definition text_clear (c : Copy) (s : TextState.t) : Completion unit * Run TextState.t :=
  match c with
  | TextAnalysis_tsx => invoke TextAnalysis.handleClearText s
  | TextAnalysisPage_tsx => invoke TextAnalysisPage.handleClearText s
  end.

Definition text_render (c : Copy) (s : TextState.t) : option Screen.t :=
  match c with
  | TextAnalysis_tsx => TextAnalysis.render s
  | TextAnalysisPage_tsx => TextAnalysisPage.render s
  end.

(** The generic message of the [catch] clause of each copy. *)
Definition text_failure (c : Copy) : string :=
  match c with
  | TextAnalysis_tsx => "Failed to analyze text. Please try again."
  | TextAnalysisPage_tsx =>
      "Failed to connect to the prediction API. Ensure the Flask backend is running."
  end.

(** The three requests of the client. *)
Definition predict_request (env : option string) (text : string) : Request :=
  post_json (JS.or env default_backend ++ "/predict") [("text", text)].

Definition explain_request (env : option string) (text : string) : Request :=
  post_json (JS.or env default_backend ++ "/explain") [("transcript", text)].

Definition audio_request (env : option string) (f : File.t) : Request :=
  {| url := JS.or env default_backend ++ "/audio-predict"; method := "POST";
     headers := []; body := FormData [("file", f)] |}.

(** A text made of white space only (the empty text is one). *)
Fixpoint whitespaceOnly (s : string) : bool :=
  match s with
  | EmptyString => true
  | String c s' => JS.isWhiteSpace c && whitespaceOnly s'
  end.

(** A text that passes the checks of the text screens. *)
Definition text_accepted (text : string) : Prop :=
  whitespaceOnly text = false /\ 20 <= JS.length text.

(** The result a screen stores for a reply of the predict endpoints. *)
Definition stored (data : Body.t) : Result.t :=
  {| Result.label := Body.prediction data;
     Result.confidence :=
       Number.mul (Number.ofOptional (Body.confidence data)) (Number.ofZ 100) |}.

(** The message of a reply that is not a success. *)
Definition server_error (r : Response) : string :=
  "Server error: " ++ JS.toString (status r).

Definition explain_fallback : string :=
  "Explanation request failed. Please try again.".

(** The limit on the size of an audio file. *)
Definition max_size : Z := 25 * 1024 * 1024.

(** The file of an audio screen, when there is one, passed the checks of
    the file input. *)
Definition file_checked (s : AudioAnalysis.t) : Prop :=
  forall f, AudioAnalysis.file s = Some f ->
            JS.startsWith (File.type f) "audio/" = true /\ File.size f <= max_size.

(** A file name that triggers the fixed answer of the audio screen. *)
Definition lie_fixture (name : string) : bool :=
  JS.endsWith (JS.toLowerCase name) ".wav"
  && JS.includes (JS.toLowerCase name) "_lie_".

(** *** Concrete inputs *)

Definition reply (p : option string) (c : option Number.t)
    (x : option string) (e : option string) : Body.t :=
  {| Body.prediction := p; Body.confidence := c;
     Body.explanation := x; Body.error := e |}.

(** A service that answers [predict] to the predict endpoints and [explain]
    to the explain endpoint. *)
Definition service (predict explain : Fetch) : Request -> Fetch :=
  fun r => if JS.endsWith (url r) "predict" then predict else explain.

Definition statement : string :=
  "I was at home all night watching TV. I didn't go anywhere near downtown.".

Definition typed (text : string) : TextState.t := TextState.setText text TextState.initial.

(** The binary64 value of the literal [0.732]. *)
Definition c0732 : Number.t := SFdiv Number.prec Number.emax (Number.ofZ 732) (Number.ofZ 1000).

(** The binary64 value of the literal [0.355]. *)
Definition c0355 : Number.t := SFdiv Number.prec Number.emax (Number.ofZ 355) (Number.ofZ 1000).

Definition truthful : Body.t := reply (Some "Truthful") (Some c0732) None None.

Definition recording (name type : string) (size : Z) : File.t :=
  {| File.name := name; File.type := type; File.size := size |}.

Definition analysed (f : File.t) (r : Result.t) : AudioAnalysis.t :=
  {| AudioAnalysis.file := Some f; AudioAnalysis.isLoading := false;
     AudioAnalysis.error := None; AudioAnalysis.result := Some r |}.

(** A reply of the service with a given status. *)
Definition answer (n : N) (j : Json) : Fetch := Resolved {| status := n; json := j |}.

(** The error a predict reply [resp] that is not a success is reported
    with: its [error] field when there is one and it is not empty, and the
    status message otherwise. *)
Definition reported (resp : Response) (err : option string) : Prop :=
  (forall o e, json resp = Parsed o -> Body.error o = Some e -> e <> "" ->
               err = Some e)
  /\ ((forall o, json resp = Parsed o ->
                 Body.error o = None \/ Body.error o = Some "") ->
      err = Some (server_error resp)).

(** A screen shows a prediction card with label [p] whose percentage is
    [Math.round] of [product], an integer between 0 and 100 that is
    [product] rounded half up. *)
Definition displays (scr : option Screen.t) (p : string) (product : Number.t) : Prop :=
  exists v card n q,
    scr = Some v
    /\ Screen.predictionResult v = Some card
    /\ PredictionResult.badge card = p
    /\ PredictionResult.confidencePercent card = Number.round product
    /\ Number.toInteger (PredictionResult.confidencePercent card) = Some n
    /\ 0 <= n <= 100
    /\ Number.toQ product = Some q
    /\ n = Qfloor (Qplus q (Qmake 1 2)).

(** A confidence that is a fraction: a binary64 value between 0 and 1. *)
Definition fraction (c : Number.t) : Prop :=
  Number.valid c = true
  /\ Number.leb (Number.ofZ 0) c = true
  /\ Number.leb c (Number.ofZ 1) = true.

(** *** Sessions: what a user does with a screen, one event at a time *)

Inductive TextEvent :=
| Typed (value : string)
| ExampleChosen (example : string)
| Cleared
| Submitted (network : Request -> Fetch).

Definition text_step (c : Copy) (env : option string) (s : TextState.t)
    (ev : TextEvent) : TextState.t :=
  match ev, c with
  | Typed v, TextAnalysis_tsx => state (snd (invoke (TextAnalysis.onChange v) s))
  | Typed v, TextAnalysisPage_tsx => state (snd (invoke (TextAnalysisPage.onChange v) s))
  | ExampleChosen x, TextAnalysis_tsx =>
      state (snd (invoke (TextAnalysis.onExampleClick x) s))
  | ExampleChosen x, TextAnalysisPage_tsx =>
      state (snd (invoke (TextAnalysisPage.handleUseExample x) s))
  | Cleared, _ => state (snd (text_clear c s))
  | Submitted network, _ => state (snd (text_submit c env network s))
  end.

Definition text_session (c : Copy) (env : option string) (evs : list TextEvent)
  : TextState.t :=
  fold_left (text_step c env) evs TextState.initial.

Inductive AudioEvent :=
| FilesChosen (files : option (list File.t))
| FileRemoved
| AudioSubmitted (network : Request -> Fetch).

Definition audio_step (env : option string) (s : AudioAnalysis.t)
    (ev : AudioEvent) : AudioAnalysis.t :=
  match ev with
  | FilesChosen files => state (snd (invoke (AudioAnalysis.handleFileChange files) s))
  | FileRemoved => state (snd (invoke AudioAnalysis.handleRemoveFile s))
  | AudioSubmitted network => state (snd (AudioAnalysis.submit env network s))
  end.

Definition audio_session (env : option string) (evs : list AudioEvent)
  : AudioAnalysis.t :=
  fold_left (audio_step env) evs AudioAnalysis.initial.

(** The number of maximal runs of characters that are not white space;
    [inside] tells that the character before [s] belongs to a run. *)
Fixpoint runs_from (inside : bool) (s : string) : nat :=
  match s with
  | EmptyString => 0
  | String c s' =>
      if JS.isWhiteSpace c then runs_from false s'
      else if inside then runs_from true s' else S (runs_from true s')
  end.

Definition words (s : string) : nat := runs_from false s.

(* ================================================================== *)
(** ** Strings *)

Section Strings.

Lemma trimStart_whitespaceOnly (s : string) :
  whitespaceOnly (JS.trimStart s) = whitespaceOnly s.
Proof.
  induction s as [|c s IH]; simpl; [reflexivity|].
  destruct (JS.isWhiteSpace c) eqn:Hc; simpl.
  - exact IH.
  - now rewrite Hc.
Qed.

Lemma trimEnd_empty (s : string) :
  JS.trimEnd s = "" <-> whitespaceOnly s = true.
Proof.
  induction s as [|c s IH]; simpl.
  - tauto.
  - destruct (JS.trimEnd s) eqn:Ht.
    + destruct (JS.isWhiteSpace c); simpl.
      * tauto.
      * split; discriminate.
    + split; [discriminate|].
      intros H. apply andb_true_iff in H. destruct H as [_ H].
      apply IH in H. discriminate.
Qed.

(** [text.trim()] is empty exactly for a text of white space only. *)
Lemma trim_truthy (s : string) :
  JS.truthy (JS.trim s) = negb (whitespaceOnly s).
Proof.
  unfold JS.truthy, JS.trim.
  rewrite <- (trimStart_whitespaceOnly s).
  destruct (whitespaceOnly (JS.trimStart s)) eqn:Hw.
  - apply trimEnd_empty in Hw. now rewrite Hw.
  - destruct (String.eqb_spec (JS.trimEnd (JS.trimStart s)) "") as [E|E].
    + apply trimEnd_empty in E. congruence.
    + reflexivity.
Qed.

Lemma truthy_append (a b : string) :
  JS.truthy a = true -> JS.truthy (a ++ b) = true.
Proof. destruct a; [discriminate | reflexivity]. Qed.

Lemma or_truthy (a : option string) (b : string) :
  JS.truthy b = true -> JS.truthy (JS.or a b) = true.
Proof.
  intros Hb. destruct a as [s|]; simpl; [|exact Hb].
  destruct (JS.truthy s) eqn:Hs; assumption.
Qed.

Lemma or_idem (s : string) (b : string) :
  JS.truthy s = true -> JS.or (Some s) b = s.
Proof. intros H. simpl. now rewrite H. Qed.

Lemma truthy_nonempty (s : string) : JS.truthy s = true <-> s <> "".
Proof.
  unfold JS.truthy. destruct (String.eqb_spec s ""); simpl; split; congruence.
Qed.

Local Open Scope nat_scope.

(** [startsWith], [includes] and [endsWith] say what their names say. *)
Lemma startsWith_spec (s p : string) :
  JS.startsWith s p = true <-> exists r, s = p ++ r.
Proof.
  unfold JS.startsWith. revert s.
  induction p as [|a p IH]; intros s.
  - split; [intros _; now exists s | intros _; destruct s; reflexivity].
  - destruct s as [|b s]; cbn.
    + split; [discriminate | intros [r Hr]; discriminate].
    + destruct (ascii_dec a b) as [->|Hne].
      * rewrite IH. split; intros [r Hr]; exists r; congruence.
      * split; [discriminate | intros [r Hr]; congruence].
Qed.

Lemma includes_spec (s p : string) :
  JS.includes s p = true <-> exists a b, s = a ++ p ++ b.
Proof.
  induction s as [|c s IH]; cbn [JS.includes].
  - rewrite orb_false_r. fold (JS.startsWith "" p). rewrite startsWith_spec.
    split.
    + intros [r Hr]. exists "", r. exact Hr.
    + intros (a & b & H). destruct a; [now exists b|discriminate].
  - rewrite orb_true_iff, IH. fold (JS.startsWith (String c s) p).
    rewrite startsWith_spec. split.
    + intros [[r Hr] | (a & b & H)].
      * exists "", r. exact Hr.
      * exists (String c a), b. cbn. now rewrite H.
    + intros (a & b & H). destruct a as [|c' a].
      * left. now exists b.
      * right. exists a, b. cbn in H. congruence.
Qed.

Lemma substring_skip (a p : string) :
  substring (String.length a) (String.length p) (a ++ p) = p.
Proof.
  induction a as [|c a IH]; cbn.
  - induction p as [|d p IHp]; cbn; [reflexivity|]. now rewrite IHp.
  - exact IH.
Qed.

Lemma substring_split (k m : nat) (s : string) :
  String.length s = k + m ->
  s = substring 0 k s ++ substring k m s.
Proof.
  revert s. induction k as [|k IH]; intros s Hlen.
  - cbn in Hlen. subst m. replace (substring 0 0 s) with "" by (destruct s; reflexivity).
    cbn. induction s as [|d s IHs]; cbn; [reflexivity|].
    now rewrite <- IHs.
  - destruct s as [|c s]; [discriminate|]. cbn in Hlen. cbn.
    f_equal. apply IH. lia.
Qed.

Lemma length_append (a b : string) :
  String.length (a ++ b) = String.length a + String.length b.
Proof. induction a as [|c a IH]; cbn; [reflexivity | now rewrite IH]. Qed.

Lemma endsWith_spec (s p : string) :
  JS.endsWith s p = true <-> exists a, s = a ++ p.
Proof.
  unfold JS.endsWith. rewrite andb_true_iff, Nat.leb_le, String.eqb_eq. split.
  - intros [Hle Hsub].
    exists (substring 0 (String.length s - String.length p) s).
    rewrite <- Hsub at 2. apply substring_split. lia.
  - intros [a ->]. rewrite length_append. split; [lia|].
    replace (String.length a + String.length p - String.length p)
      with (String.length a) by lia.
    apply substring_skip.
Qed.

Lemma lowerChar_idempotent (c : ascii) :
  JS.lowerChar (JS.lowerChar c) = JS.lowerChar c.
Proof. destruct c as [[] [] [] [] [] [] [] []]; reflexivity. Qed.

Lemma toLowerCase_idempotent (s : string) :
  JS.toLowerCase (JS.toLowerCase s) = JS.toLowerCase s.
Proof.
  induction s as [|c s IH]; cbn; [reflexivity|].
  now rewrite lowerChar_idempotent, IH.
Qed.

End Strings.

(* ================================================================== *)
(** ** The text screens: validation *)

Ltac step_handler :=
  unfold try_catch_finally, bind, set, fetch, await_json, await_json_catch_null,
         throw, ret; cbn.

(** C3: a text that is empty, made of white space only, or shorter than 20
    characters is rejected by both copies of the text screen: submitting
    sets one of the two validation messages as the error, issues no
    request, and leaves every other part of the state, result and
    explanation included, as it was. *)
Theorem C3_text_rejected
    (c : Copy) (env : option string) (network : Request -> Fetch) (s : TextState.t) :
  whitespaceOnly (TextState.text s) = true \/ JS.length (TextState.text s) < 20 ->
  exists reason,
    (reason = "Please enter some text to analyze"
     \/ reason = "Please enter at least 20 characters for more accurate analysis")
    /\ fst (text_submit c env network s) = Normal tt
    /\ state (snd (text_submit c env network s)) = TextState.setError (Some reason) s
    /\ issued (snd (text_submit c env network s)) = []
    /\ TextState.result (state (snd (text_submit c env network s))) = TextState.result s
    /\ TextState.explanation (state (snd (text_submit c env network s)))
       = TextState.explanation s.
Proof.
  intros H.
  destruct (whitespaceOnly (TextState.text s)) eqn:Hw.
  - exists "Please enter some text to analyze".
    destruct c; unfold text_submit, TextAnalysis.submit, TextAnalysisPage.submit,
      TextAnalysis.handleSubmit, TextAnalysisPage.handleSubmit, invoke;
      rewrite trim_truthy, Hw; cbn; auto 10.
  - destruct H as [H|H]; [discriminate|].
    apply Z.ltb_lt in H.
    exists "Please enter at least 20 characters for more accurate analysis".
    destruct c; unfold text_submit, TextAnalysis.submit, TextAnalysisPage.submit,
      TextAnalysis.handleSubmit, TextAnalysisPage.handleSubmit, invoke;
      rewrite trim_truthy, Hw, H; cbn; auto 10.
Qed.

Lemma C3_text_rejected_witness :
  (whitespaceOnly (TextState.text (typed "too short")) = true
   \/ JS.length (TextState.text (typed "too short")) < 20)
  /\ issued (snd (text_submit TextAnalysis_tsx None
                    (service (Rejected "") (Rejected "")) (typed "too short"))) = [].
Proof.
  assert (H : whitespaceOnly (TextState.text (typed "too short")) = true
              \/ JS.length (TextState.text (typed "too short")) < 20)
    by (right; vm_compute; reflexivity).
  split; [exact H|].
  destruct (C3_text_rejected TextAnalysis_tsx None
              (service (Rejected "") (Rejected "")) (typed "too short") H)
    as (reason & _ & _ & _ & Hi & _).
  exact Hi.
Defined.

(* ================================================================== *)
(** ** The text screens: one accepted submission *)

Lemma text_accepted_checks (text : string) :
  text_accepted text ->
  JS.truthy (JS.trim text) = true /\ (JS.length text <? 20) = false.
Proof.
  intros [Hw Hl]. rewrite trim_truthy, Hw. split; [reflexivity|].
  now apply Z.ltb_ge.
Qed.

Ltac enter_submit H :=
  let Ht := fresh "Ht" in
  let Hl := fresh "Hl" in
  destruct (text_accepted_checks _ H) as [Ht Hl];
  unfold text_submit, TextAnalysis.submit, TextAnalysisPage.submit,
    TextAnalysis.handleSubmit, TextAnalysisPage.handleSubmit, invoke,
    TextAnalysis.BACKEND_URL, TextAnalysisPage.BACKEND_URL;
  rewrite ?Ht, ?Hl;
  fold (predict_request);
  step_handler.

(** Case analysis on what the service answers, in the order of the run. *)
Ltac split_run net :=
  repeat (cbn;
          match goal with
          | |- context [net ?r] => destruct (net r) eqn:?
          | |- context [ok ?r] => destruct (ok r) eqn:?
          | |- context [json ?r] => destruct (json r) eqn:?
          end);
  cbn.

(** The first request of an accepted submission of a text screen is the
    predict request, issued in a state where result, explanation and error
    are null. *)
Lemma text_first_request
    (c : Copy) (env : option string) (network : Request -> Fetch) (s : TextState.t) :
  text_accepted (TextState.text s) ->
  exists s0 later,
    issued (snd (text_submit c env network s))
    = (s0, predict_request env (TextState.text s)) :: later
    /\ TextState.result s0 = None
    /\ TextState.explanation s0 = None
    /\ TextState.error s0 = None.
Proof.
  intros H.
  exists (TextState.setResult None
            (TextState.setExplanation None
               (TextState.setError None (TextState.setIsLoading true s)))).
  destruct c; enter_submit H; unfold predict_request;
    split_run network; eexists; repeat split; reflexivity.
Qed.

(* ================================================================== *)
(** ** Replies that are not a success *)

Arguments JS.or : simpl never.
Arguments JS.toString : simpl never.
Arguments Number.mul : simpl never.
Arguments Number.ofZ : simpl never.

(** The [error] field the handlers read from a reply: [errorData?.error]. *)
Lemma server_error_truthy (resp : Response) : JS.truthy (server_error resp) = true.
Proof. reflexivity. Qed.

Lemma thrown_message_kept (field : option string) (fallback generic : string) :
  JS.truthy fallback = true ->
  JS.or (Some (JS.or field fallback)) generic = JS.or field fallback.
Proof. intros H. now apply or_idem, or_truthy. Qed.

Lemma reported_field (resp : Response) :
  reported resp
    (Some (JS.or match json resp with
                 | Parsed o => Body.error o
                 | SyntaxError _ => None
                 end (server_error resp))).
Proof.
  split.
  - intros o e Hj He Hne. rewrite Hj, He.
    now rewrite or_idem by (now apply truthy_nonempty).
  - intros H. destruct (json resp) as [m|o]; [reflexivity|].
    destruct (H o eq_refl) as [E|E]; rewrite E; reflexivity.
Qed.

(** The state of a text screen after a predict reply that is not a
    success: the error is set, nothing else has changed, and the explain
    request was never issued. *)
Lemma text_predict_failed
    (c : Copy) (env : option string) (network : Request -> Fetch)
    (s : TextState.t) (resp : Response) :
  text_accepted (TextState.text s) ->
  network (predict_request env (TextState.text s)) = Resolved resp ->
  ok resp = false ->
  state (snd (text_submit c env network s))
  = TextState.setIsExplaining false
      (TextState.setIsLoading false
         (TextState.setError
            (Some (JS.or match json resp with
                         | Parsed o => Body.error o
                         | SyntaxError _ => None
                         end (server_error resp)))
            (TextState.setResult None
               (TextState.setExplanation None
                  (TextState.setError None (TextState.setIsLoading true s))))))
  /\ List.length (issued (snd (text_submit c env network s))) = 1%nat.
Proof.
  intros H Hnet Hok. unfold predict_request in Hnet.
  destruct c; enter_submit H; rewrite Hnet; cbn; rewrite Hok; cbn;
    destruct (json resp); cbn;
    rewrite thrown_message_kept by reflexivity; auto.
Qed.

Lemma audio_predict_failed
    (env : option string) (network : Request -> Fetch)
    (s : AudioAnalysis.t) (f : File.t) (resp : Response) :
  AudioAnalysis.file s = Some f ->
  lie_fixture (File.name f) = false ->
  network (audio_request env f) = Resolved resp ->
  ok resp = false ->
  state (snd (AudioAnalysis.submit env network s))
  = AudioAnalysis.setIsLoading false
      (AudioAnalysis.setError
         (Some (JS.or match json resp with
                      | Parsed o => Body.error o
                      | SyntaxError _ => None
                      end (server_error resp)))
         (AudioAnalysis.setError None (AudioAnalysis.setIsLoading true s)))
  /\ List.length (issued (snd (AudioAnalysis.submit env network s))) = 1%nat.
Proof.
  intros Hf Hlie Hnet Hok. unfold audio_request in Hnet. unfold lie_fixture in Hlie.
  unfold AudioAnalysis.submit, AudioAnalysis.handleSubmit, invoke,
    AudioAnalysis.BACKEND_URL.
  rewrite Hf, Hlie. step_handler. rewrite Hnet; cbn; rewrite Hok; cbn.
  destruct (json resp); cbn;
    rewrite thrown_message_kept by reflexivity; auto.
Qed.

(** C7 (amended): for a predict or audio-predict reply whose status is not
    2xx, the error the screen ends with is the [error] field of the reply's
    JSON body when the body parses, has that field and the field is not the
    empty string; and it is "Server error: <status>" when the body does not
    parse, has no such field, or has it empty. *)
Theorem C7_error_of_failed_reply
    (env : option string) (network : Request -> Fetch) (resp : Response) :
  ok resp = false ->
  (forall c s,
      text_accepted (TextState.text s) ->
      network (predict_request env (TextState.text s)) = Resolved resp ->
      reported resp (TextState.error (state (snd (text_submit c env network s)))))
  /\ (forall s f,
         AudioAnalysis.file s = Some f ->
         lie_fixture (File.name f) = false ->
         network (audio_request env f) = Resolved resp ->
         reported resp
           (AudioAnalysis.error (state (snd (AudioAnalysis.submit env network s))))).
Proof.
  intros Hok. split.
  - intros c s H Hnet.
    destruct (text_predict_failed c env network s resp H Hnet Hok) as [-> _].
    cbn. apply reported_field.
  - intros s f Hf Hlie Hnet.
    destruct (audio_predict_failed env network s f resp Hf Hlie Hnet Hok) as [-> _].
    cbn. apply reported_field.
Qed.

Lemma C7_error_of_failed_reply_witness :
  ok {| status := 503; json := Parsed (reply None None None (Some "Model is loading")) |}
  = false
  /\ TextState.error
       (state (snd (text_submit TextAnalysis_tsx None
                      (service (answer 503 (Parsed (reply None None None
                                                     (Some "Model is loading"))))
                               (Rejected "offline"))
                      (typed statement))))
     = Some "Model is loading".
Proof.
  split; [reflexivity|].
  destruct (C7_error_of_failed_reply None
              (service (answer 503 (Parsed (reply None None None
                                              (Some "Model is loading"))))
                       (Rejected "offline"))
              {| status := 503;
                 json := Parsed (reply None None None (Some "Model is loading")) |}
              eq_refl) as [Ht _].
  refine (proj1 (Ht TextAnalysis_tsx (typed statement) _ _) _ _ eq_refl eq_refl _).
  - split; vm_compute; [reflexivity | discriminate].
  - reflexivity.
  - discriminate.
Defined.

(** C7 as stated fails: a reply with status 500 whose body is
    [{"error": ""}] carries the field, and the error shown is the status
    message, not the field. *)
Lemma C7_empty_error_field :
  let resp := {| status := 500; json := Parsed (reply None None None (Some "")) |} in
  let shown :=
    TextState.error
      (state (snd (text_submit TextAnalysis_tsx None
                     (service (Resolved resp) (Rejected "offline"))
                     (typed statement)))) in
  ok resp = false
  /\ (exists o, json resp = Parsed o /\ Body.error o = Some "")
  /\ shown = Some "Server error: 500"
  /\ shown <> Some "".
Proof.
  cbv zeta. split; [reflexivity|]. split.
  - eexists. split; reflexivity.
  - split; [vm_compute; reflexivity | vm_compute; discriminate].
Qed.

(* ================================================================== *)
(** ** The explanation phase *)

Lemma ErrorMessage_truthy (e : string) :
  JS.truthy e = true -> ErrorMessage (Some e) = Some e.
Proof. intros H. unfold ErrorMessage. now rewrite H. Qed.

(** C1 (amended): in both copies of the text screen, when the predict
    request succeeded and its result was set, a failing explain request
    leaves that result set and displayed.  If the explain reply has a
    status that is not 2xx, no error is set, and [TextAnalysisPage] shows
    the fixed message "Explanation request failed. Please try again." as
    the explanation.  If the explain request throws, the error is set to
    the message thrown (to the generic failure message of the copy when
    that message is empty) and the explanation stays null. *)
Theorem C1_explain_failure
    (c : Copy) (env : option string) (network : Request -> Fetch)
    (s : TextState.t) (presp : Response) (data : Body.t) (p : string) :
  text_accepted (TextState.text s) ->
  network (predict_request env (TextState.text s)) = Resolved presp ->
  ok presp = true ->
  json presp = Parsed data ->
  Body.prediction data = Some p ->
  (forall eresp,
      network (explain_request env (TextState.text s)) = Resolved eresp ->
      ok eresp = false ->
      TextState.result (state (snd (text_submit c env network s))) = Some (stored data)
      /\ TextState.error (state (snd (text_submit c env network s))) = None
      /\ (c = TextAnalysisPage_tsx ->
          TextState.explanation (state (snd (text_submit c env network s)))
          = Some explain_fallback)
      /\ exists v card,
           text_render c (state (snd (text_submit c env network s))) = Some v
           /\ Screen.predictionResult v = Some card
           /\ PredictionResult.badge card = p
           /\ Screen.errorMessage v = None
           /\ (c = TextAnalysisPage_tsx ->
               Screen.explanationCard v = Some explain_fallback))
  /\ (forall message,
         network (explain_request env (TextState.text s)) = Rejected message ->
         TextState.result (state (snd (text_submit c env network s))) = Some (stored data)
         /\ TextState.error (state (snd (text_submit c env network s)))
            = Some (JS.or (Some message) (text_failure c))
         /\ TextState.explanation (state (snd (text_submit c env network s))) = None
         /\ exists v card,
              text_render c (state (snd (text_submit c env network s))) = Some v
              /\ Screen.predictionResult v = Some card
              /\ PredictionResult.badge card = p
              /\ Screen.errorMessage v = Some (JS.or (Some message) (text_failure c))).
Proof.
  intros H Hnet Hok Hjson Hp.
  unfold predict_request in Hnet. unfold explain_request.
  split.
  - intros eresp Hexp Hnok.
    destruct c; enter_submit H; rewrite Hnet; cbn; rewrite Hok; cbn;
      rewrite Hjson; cbn; rewrite Hexp; cbn; rewrite Hnok; cbn;
      (split; [reflexivity|]); (split; [reflexivity|]);
      (split; [try reflexivity; discriminate|]);
      unfold TextAnalysis.render, TextAnalysisPage.render,
        PredictionResult.render; cbn; rewrite Hp; cbn;
      eexists; eexists; (split; [reflexivity|]); cbn;
      repeat split; try reflexivity; discriminate.
  - intros message Hexp.
    assert (Ht : JS.truthy (JS.or (Some message) (text_failure c)) = true)
      by (apply or_truthy; destruct c; reflexivity).
    destruct c; enter_submit H; rewrite Hnet; cbn; rewrite Hok; cbn;
      rewrite Hjson; cbn; rewrite Hexp; cbn;
      (split; [reflexivity|]); (split; [reflexivity|]);
      (split; [reflexivity|]);
      unfold TextAnalysis.render, TextAnalysisPage.render,
        PredictionResult.render; cbn; rewrite Hp; cbn;
      eexists; eexists; (split; [reflexivity|]); cbn;
      (split; [reflexivity|]); (split; [reflexivity|]);
      apply ErrorMessage_truthy, Ht.
Qed.

Lemma C1_explain_failure_witness :
  text_accepted (TextState.text (typed statement))
  /\ TextState.result
       (state (snd (text_submit TextAnalysisPage_tsx None
                      (service (answer 200 (Parsed truthful))
                               (answer 500 (SyntaxError "Unexpected token")))
                      (typed statement))))
     = Some (stored truthful)
  /\ TextState.explanation
       (state (snd (text_submit TextAnalysisPage_tsx None
                      (service (answer 200 (Parsed truthful))
                               (answer 500 (SyntaxError "Unexpected token")))
                      (typed statement))))
     = Some explain_fallback.
Proof.
  assert (H : text_accepted (TextState.text (typed statement)))
    by (split; vm_compute; [reflexivity | discriminate]).
  split; [exact H|].
  destruct (C1_explain_failure TextAnalysisPage_tsx None
              (service (answer 200 (Parsed truthful))
                       (answer 500 (SyntaxError "Unexpected token")))
              (typed statement)
              {| status := 200; json := Parsed truthful |} truthful "Truthful"
              H eq_refl eq_refl eq_refl eq_refl) as [Hfail _].
  destruct (Hfail {| status := 500; json := SyntaxError "Unexpected token" |}
              eq_refl eq_refl) as (Hr & _ & He & _).
  split; [exact Hr | exact (He eq_refl)].
Defined.

(** C1 as stated fails.  When the explain request throws after a successful
    predict request, the screen ends in a failure state: the error is set
    and there is no explanation.  And in TextAnalysis.tsx an explain reply
    with status 500 leaves the explanation null. *)
Lemma C1_explain_throws :
  let thrown :=
    state (snd (text_submit TextAnalysisPage_tsx None
                  (service (answer 200 (Parsed truthful)) (Rejected "Failed to fetch"))
                  (typed statement))) in
  let refused :=
    state (snd (text_submit TextAnalysis_tsx None
                  (service (answer 200 (Parsed truthful))
                           (answer 500 (Parsed (reply None None None None))))
                  (typed statement))) in
  (TextState.result thrown = Some (stored truthful)
   /\ TextState.error thrown = Some "Failed to fetch"
   /\ TextState.explanation thrown = None)
  /\ (TextState.result refused = Some (stored truthful)
      /\ TextState.error refused = None
      /\ TextState.explanation refused = None).
Proof.
  cbv zeta. repeat split; vm_compute; reflexivity.
Qed.

(** C10: in TextAnalysis.tsx, after a successful predict request, an
    explain reply with a 2xx status whose JSON body has no [explanation]
    field, or has the empty string there, sets the explanation to
    "No explanation available."; it is not left null, and the prediction
    card shows that text. *)
Theorem C10_no_explanation_available
    (env : option string) (network : Request -> Fetch) (s : TextState.t)
    (presp eresp : Response) (data expData : Body.t) :
  text_accepted (TextState.text s) ->
  network (predict_request env (TextState.text s)) = Resolved presp ->
  ok presp = true ->
  json presp = Parsed data ->
  network (explain_request env (TextState.text s)) = Resolved eresp ->
  ok eresp = true ->
  json eresp = Parsed expData ->
  Body.explanation expData = None \/ Body.explanation expData = Some "" ->
  TextState.explanation (state (snd (TextAnalysis.submit env network s)))
  = Some "No explanation available."
  /\ TextState.error (state (snd (TextAnalysis.submit env network s))) = None
  /\ forall p, Body.prediction data = Some p ->
       exists v card,
         TextAnalysis.render (state (snd (TextAnalysis.submit env network s))) = Some v
         /\ Screen.predictionResult v = Some card
         /\ PredictionResult.explanationBlock card = Some "No explanation available.".
Proof.
  intros H Hnet Hok Hjson Hexp Heok Hejson Hx.
  unfold predict_request in Hnet. unfold explain_request in Hexp.
  assert (Hor : JS.or (Body.explanation expData) "No explanation available."
                = "No explanation available.")
    by (destruct Hx as [-> | ->]; reflexivity).
  fold (text_submit TextAnalysis_tsx env network s).
  enter_submit H; rewrite Hnet; cbn; rewrite Hok; cbn;
    rewrite Hjson; cbn; rewrite Hexp; cbn; rewrite Heok; cbn;
    rewrite Hejson; cbn; rewrite Hor.
  split; [reflexivity|]. split; [reflexivity|].
  intros p Hp. unfold TextAnalysis.render, PredictionResult.render; cbn.
  rewrite Hp; cbn. eexists; eexists. repeat split.
Qed.

Lemma C10_no_explanation_available_witness :
  text_accepted (TextState.text (typed statement))
  /\ TextState.explanation
       (state (snd (TextAnalysis.submit None
                      (service (answer 200 (Parsed truthful))
                               (answer 200 (Parsed (reply None None (Some "") None))))
                      (typed statement))))
     = Some "No explanation available.".
Proof.
  assert (H : text_accepted (TextState.text (typed statement)))
    by (split; vm_compute; [reflexivity | discriminate]).
  split; [exact H|].
  refine (proj1 (C10_no_explanation_available None
            (service (answer 200 (Parsed truthful))
                     (answer 200 (Parsed (reply None None (Some "") None))))
            (typed statement)
            {| status := 200; json := Parsed truthful |}
            {| status := 200; json := Parsed (reply None None (Some "") None) |}
            truthful (reply None None (Some "") None)
            H eq_refl eq_refl eq_refl eq_refl eq_refl eq_refl _)).
  right. reflexivity.
Defined.

(* ================================================================== *)
(** ** The two copies of the text screen *)

(** Whatever the service answers, the two copies end with the same
    prediction result. *)
Lemma copies_same_result
    (env : option string) (network : Request -> Fetch) (s : TextState.t) :
  TextState.result (state (snd (TextAnalysis.submit env network s)))
  = TextState.result (state (snd (TextAnalysisPage.submit env network s))).
Proof.
  unfold TextAnalysis.submit, TextAnalysisPage.submit,
    TextAnalysis.handleSubmit, TextAnalysisPage.handleSubmit, invoke,
    TextAnalysis.BACKEND_URL, TextAnalysisPage.BACKEND_URL.
  destruct (JS.truthy (JS.trim (TextState.text s))); cbn; [|reflexivity].
  destruct (JS.length (TextState.text s) <? 20); cbn; [reflexivity|].
  step_handler. split_run network; reflexivity.
Qed.

(** C8: the two copies of the text screen differ when the predict request
    succeeds and the explain reply has a status that is not 2xx:
    [TextAnalysisPage] sets the fixed message "Explanation request failed.
    Please try again." as the explanation, TextAnalysis.tsx leaves the
    explanation null.  For every state and every service the two copies
    end with the same prediction result. *)
Theorem C8_copies_diverge
    (env : option string) (network : Request -> Fetch) (s : TextState.t) :
  (forall presp data eresp,
      text_accepted (TextState.text s) ->
      network (predict_request env (TextState.text s)) = Resolved presp ->
      ok presp = true ->
      json presp = Parsed data ->
      network (explain_request env (TextState.text s)) = Resolved eresp ->
      ok eresp = false ->
      TextState.explanation (state (snd (TextAnalysis.submit env network s))) = None
      /\ TextState.explanation (state (snd (TextAnalysisPage.submit env network s)))
         = Some explain_fallback)
  /\ TextState.result (state (snd (TextAnalysis.submit env network s)))
     = TextState.result (state (snd (TextAnalysisPage.submit env network s))).
Proof.
  split; [|apply copies_same_result].
  intros presp data eresp H Hnet Hok Hjson Hexp Hnok.
  unfold predict_request in Hnet. unfold explain_request in Hexp.
  split.
  - fold (text_submit TextAnalysis_tsx env network s).
    enter_submit H; rewrite Hnet; cbn; rewrite Hok; cbn;
      rewrite Hjson; cbn; rewrite Hexp; cbn; rewrite Hnok; reflexivity.
  - fold (text_submit TextAnalysisPage_tsx env network s).
    enter_submit H; rewrite Hnet; cbn; rewrite Hok; cbn;
      rewrite Hjson; cbn; rewrite Hexp; cbn; rewrite Hnok; reflexivity.
Qed.

Lemma C8_copies_diverge_witness :
  text_accepted (TextState.text (typed statement))
  /\ TextState.explanation
       (state (snd (TextAnalysis.submit None
                      (service (answer 200 (Parsed truthful))
                               (answer 502 (SyntaxError "Unexpected token")))
                      (typed statement)))) = None
  /\ TextState.explanation
       (state (snd (TextAnalysisPage.submit None
                      (service (answer 200 (Parsed truthful))
                               (answer 502 (SyntaxError "Unexpected token")))
                      (typed statement)))) = Some explain_fallback.
Proof.
  assert (H : text_accepted (TextState.text (typed statement)))
    by (split; vm_compute; [reflexivity | discriminate]).
  split; [exact H|].
  exact (proj1 (C8_copies_diverge None
                  (service (answer 200 (Parsed truthful))
                           (answer 502 (SyntaxError "Unexpected token")))
                  (typed statement))
           {| status := 200; json := Parsed truthful |} truthful
           {| status := 502; json := SyntaxError "Unexpected token" |}
           H eq_refl eq_refl eq_refl eq_refl eq_refl).
Defined.

(* ================================================================== *)
(** ** The audio screen *)

(** A file is refused by the file input. *)
Lemma file_refused
    (s : AudioAnalysis.t) (f : File.t) (others : list File.t) :
  JS.startsWith (File.type f) "audio/" = false \/ File.size f > max_size ->
  exists reason,
    (reason = "Please select a valid audio file (MP3 or WAV)"
     \/ reason = "File size exceeds 25MB limit")
    /\ invoke (AudioAnalysis.handleFileChange (Some (f :: others))) s
       = (Normal tt, {| state := AudioAnalysis.setError (Some reason) s; issued := [] |}).
Proof.
  intros H. unfold AudioAnalysis.handleFileChange, invoke.
  destruct (JS.startsWith (File.type f) "audio/") eqn:Ht; cbn [negb].
  - destruct H as [H|H]; [discriminate|].
    unfold max_size in H. apply Z.gtb_gt in H. rewrite H.
    eexists; split; [right|]; reflexivity.
  - eexists; split; [left|]; reflexivity.
Qed.

(** The requests of one submission of the audio screen: none, or one that
    carries the file of the state. *)
Lemma audio_requests
    (env : option string) (network : Request -> Fetch) (s : AudioAnalysis.t) :
  issued (snd (AudioAnalysis.submit env network s)) = []
  \/ exists s0 g,
       AudioAnalysis.file s = Some g
       /\ issued (snd (AudioAnalysis.submit env network s)) = [(s0, audio_request env g)].
Proof.
  unfold AudioAnalysis.submit, AudioAnalysis.handleSubmit, invoke,
    AudioAnalysis.BACKEND_URL.
  destruct (AudioAnalysis.file s) as [g|]; [|left; reflexivity].
  destruct (JS.endsWith _ _ && JS.includes _ _); [left; reflexivity|].
  right. step_handler. unfold audio_request.
  split_run network; eexists; eexists; split; reflexivity.
Qed.

(** C2: in the audio screen, submitting a file whose lower-cased name ends
    with ".wav" and contains "_lie_" sets the result to label "Deceptive"
    with confidence 95, which the card shows as 95 percent, clears the
    error, and issues no request. *)
Theorem C2_lie_fixture
    (env : option string) (network : Request -> Fetch)
    (s : AudioAnalysis.t) (f : File.t) :
  AudioAnalysis.file s = Some f ->
  JS.endsWith (JS.toLowerCase (File.name f)) ".wav" = true ->
  JS.includes (JS.toLowerCase (File.name f)) "_lie_" = true ->
  AudioAnalysis.result (state (snd (AudioAnalysis.submit env network s)))
  = Some {| Result.label := Some "Deceptive"; Result.confidence := Number.ofZ 95 |}
  /\ AudioAnalysis.error (state (snd (AudioAnalysis.submit env network s))) = None
  /\ issued (snd (AudioAnalysis.submit env network s)) = []
  /\ exists v card,
       AudioAnalysis.render (state (snd (AudioAnalysis.submit env network s))) = Some v
       /\ Screen.errorMessage v = None
       /\ Screen.predictionResult v = Some card
       /\ PredictionResult.badge card = "Deceptive"
       /\ Number.toInteger (PredictionResult.confidencePercent card) = Some 95.
Proof.
  intros Hf Hw Hl.
  unfold AudioAnalysis.submit, AudioAnalysis.handleSubmit, invoke.
  rewrite Hf, Hw, Hl. cbn.
  repeat split. eexists; eexists. repeat split.
Qed.

Lemma C2_lie_fixture_witness :
  AudioAnalysis.file (analysed (recording "Trial_LIE_007.WAV" "audio/wav" 48000)
                        {| Result.label := Some "Truthful";
                           Result.confidence := Number.ofZ 80 |})
  = Some (recording "Trial_LIE_007.WAV" "audio/wav" 48000)
  /\ issued (snd (AudioAnalysis.submit None (service (Rejected "") (Rejected ""))
                    (analysed (recording "Trial_LIE_007.WAV" "audio/wav" 48000)
                       {| Result.label := Some "Truthful";
                          Result.confidence := Number.ofZ 80 |}))) = [].
Proof.
  split; [reflexivity|].
  refine (proj1 (proj2 (proj2 (C2_lie_fixture None (service (Rejected "") (Rejected ""))
            (analysed (recording "Trial_LIE_007.WAV" "audio/wav" 48000)
               {| Result.label := Some "Truthful"; Result.confidence := Number.ofZ 80 |})
            (recording "Trial_LIE_007.WAV" "audio/wav" 48000)
            eq_refl _ _)))); vm_compute; reflexivity.
Defined.

(** C4: in the audio screen, selecting a file whose MIME type does not
    start with "audio/" or whose size exceeds 25*1024*1024 bytes sets a
    validation message as the error and issues no request; the file does
    not become the file of the state, and a submission that follows issues
    no request that carries it. *)
Theorem C4_file_rejected
    (env : option string) (network : Request -> Fetch)
    (s : AudioAnalysis.t) (f : File.t) (others : list File.t) :
  file_checked s ->
  JS.startsWith (File.type f) "audio/" = false \/ File.size f > 25 * 1024 * 1024 ->
  (exists reason,
      (reason = "Please select a valid audio file (MP3 or WAV)"
       \/ reason = "File size exceeds 25MB limit")
      /\ AudioAnalysis.error
           (state (snd (invoke (AudioAnalysis.handleFileChange (Some (f :: others))) s)))
         = Some reason)
  /\ issued (snd (invoke (AudioAnalysis.handleFileChange (Some (f :: others))) s)) = []
  /\ AudioAnalysis.file
       (state (snd (invoke (AudioAnalysis.handleFileChange (Some (f :: others))) s)))
     <> Some f
  /\ forall s0 r,
       In (s0, r)
          (issued (snd (AudioAnalysis.submit env network
             (state (snd (invoke (AudioAnalysis.handleFileChange (Some (f :: others))) s)))))) ->
       body r <> FormData [("file", f)].
Proof.
  intros Hc H.
  assert (Hne : AudioAnalysis.file s <> Some f).
  { intros Hf. destruct (Hc f Hf) as [Ht Hs]. destruct H as [H|H].
    - congruence.
    - unfold max_size in Hs. lia. }
  destruct (file_refused s f others H) as (reason & Hr & ->). cbn.
  split; [exists reason; split; [exact Hr | reflexivity]|].
  split; [reflexivity|]. split; [exact Hne|].
  intros s0 r Hin.
  destruct (audio_requests env network (AudioAnalysis.setError (Some reason) s))
    as [E | (s1 & g & Hg & E)]; rewrite E in Hin; cbn in Hin.
  - contradiction.
  - destruct Hin as [Hin|[]]. inversion Hin; subst. cbn in *.
    intros Heq. inversion Heq; subst. contradiction.
Qed.

Lemma C4_file_rejected_witness :
  file_checked AudioAnalysis.initial
  /\ (JS.startsWith (File.type (recording "notes.pdf" "application/pdf" 1000)) "audio/"
      = false
      \/ File.size (recording "notes.pdf" "application/pdf" 1000) > 25 * 1024 * 1024)
  /\ issued (snd (invoke (AudioAnalysis.handleFileChange
                            (Some [recording "notes.pdf" "application/pdf" 1000]))
                         AudioAnalysis.initial)) = [].
Proof.
  assert (Hc : file_checked AudioAnalysis.initial) by (intros f Hf; discriminate).
  assert (H : JS.startsWith (File.type (recording "notes.pdf" "application/pdf" 1000))
                "audio/" = false
              \/ File.size (recording "notes.pdf" "application/pdf" 1000)
                 > 25 * 1024 * 1024) by (left; reflexivity).
  split; [exact Hc|]. split; [exact H|].
  exact (proj1 (proj2 (C4_file_rejected None (service (Rejected "") (Rejected ""))
                         AudioAnalysis.initial
                         (recording "notes.pdf" "application/pdf" 1000) [] Hc H))).
Defined.

(** C9: in the audio screen, a newly selected file that fails validation
    changes the error only: the file accepted before remains the file of
    the state, the loading flag and the result are as they were, so that a
    result displayed before is shown together with the new validation
    message. *)
Theorem C9_rejection_keeps_result
    (s : AudioAnalysis.t) (f : File.t) (others : list File.t) :
  JS.startsWith (File.type f) "audio/" = false \/ File.size f > 25 * 1024 * 1024 ->
  exists reason,
    state (snd (invoke (AudioAnalysis.handleFileChange (Some (f :: others))) s))
    = {| AudioAnalysis.file := AudioAnalysis.file s;
         AudioAnalysis.isLoading := AudioAnalysis.isLoading s;
         AudioAnalysis.error := Some reason;
         AudioAnalysis.result := AudioAnalysis.result s |}
    /\ forall r p,
         AudioAnalysis.result s = Some r ->
         Result.label r = Some p ->
         exists v card,
           AudioAnalysis.render
             (state (snd (invoke (AudioAnalysis.handleFileChange (Some (f :: others))) s)))
           = Some v
           /\ Screen.errorMessage v = Some reason
           /\ Screen.predictionResult v = Some card
           /\ PredictionResult.badge card = p
           /\ PredictionResult.progress card = Result.confidence r.
Proof.
  intros H. destruct (file_refused s f others H) as (reason & Hr & ->).
  exists reason. cbn. split; [reflexivity|].
  intros r p Hres Hp. unfold AudioAnalysis.render, PredictionResult.render. cbn.
  rewrite Hres. cbn. rewrite Hp.
  eexists; eexists. split; [reflexivity|]. cbn.
  split; [destruct Hr as [-> | ->]; reflexivity|]. repeat split.
Qed.

Lemma C9_rejection_keeps_result_witness :
  (JS.startsWith (File.type (recording "huge.wav" "audio/wav" 30000000)) "audio/" = false
   \/ File.size (recording "huge.wav" "audio/wav" 30000000) > 25 * 1024 * 1024)
  /\ exists reason,
       state (snd (invoke (AudioAnalysis.handleFileChange
                             (Some [recording "huge.wav" "audio/wav" 30000000]))
                          (analysed (recording "talk.mp3" "audio/mpeg" 4096)
                                    (stored truthful))))
       = {| AudioAnalysis.file := Some (recording "talk.mp3" "audio/mpeg" 4096);
            AudioAnalysis.isLoading := false;
            AudioAnalysis.error := Some reason;
            AudioAnalysis.result := Some (stored truthful) |}.
Proof.
  assert (H : JS.startsWith (File.type (recording "huge.wav" "audio/wav" 30000000))
                "audio/" = false
              \/ File.size (recording "huge.wav" "audio/wav" 30000000)
                 > 25 * 1024 * 1024) by (right; reflexivity).
  split; [exact H|].
  destruct (C9_rejection_keeps_result
              (analysed (recording "talk.mp3" "audio/mpeg" 4096) (stored truthful))
              (recording "huge.wav" "audio/wav" 30000000) [] H) as (reason & Hs & _).
  exists reason. exact Hs.
Defined.

(** Every request of the audio screen is issued with the error reset. *)
Lemma audio_request_state
    (env : option string) (network : Request -> Fetch) (s s0 : AudioAnalysis.t)
    (r : Request) :
  In (s0, r) (issued (snd (AudioAnalysis.submit env network s))) ->
  s0 = AudioAnalysis.setError None (AudioAnalysis.setIsLoading true s).
Proof.
  unfold AudioAnalysis.submit, AudioAnalysis.handleSubmit, invoke,
    AudioAnalysis.BACKEND_URL.
  destruct (AudioAnalysis.file s) as [g|]; [|intros []].
  destruct (JS.endsWith _ _ && JS.includes _ _); [intros []|].
  step_handler. split_run network; intros [Hin|[]]; congruence.
Qed.

(** C6 (amended): in both copies of the text screen, a submission that
    passes the checks issues its first request, the predict request, in a
    state where result, explanation and error have all been reset to null,
    and the clear action resets the three of them and issues no request.
    In the audio screen, accepting a file and removing the file reset
    result and error and issue no request, and every request of a
    submission is issued with the error reset. *)
Theorem C6_reset_before_request (env : option string) (network : Request -> Fetch) :
  (forall c s,
      text_accepted (TextState.text s) ->
      exists s0 later,
        issued (snd (text_submit c env network s))
        = (s0, predict_request env (TextState.text s)) :: later
        /\ TextState.result s0 = None
        /\ TextState.explanation s0 = None
        /\ TextState.error s0 = None)
  /\ (forall c s,
         TextState.result (state (snd (text_clear c s))) = None
         /\ TextState.explanation (state (snd (text_clear c s))) = None
         /\ TextState.error (state (snd (text_clear c s))) = None
         /\ issued (snd (text_clear c s)) = [])
  /\ (forall s f others,
         JS.startsWith (File.type f) "audio/" = true ->
         File.size f <= 25 * 1024 * 1024 ->
         invoke (AudioAnalysis.handleFileChange (Some (f :: others))) s
         = (Normal tt,
            {| state := {| AudioAnalysis.file := Some f;
                           AudioAnalysis.isLoading := AudioAnalysis.isLoading s;
                           AudioAnalysis.error := None;
                           AudioAnalysis.result := None |};
               issued := [] |}))
  /\ (forall s,
         invoke AudioAnalysis.handleRemoveFile s
         = (Normal tt,
            {| state := {| AudioAnalysis.file := None;
                           AudioAnalysis.isLoading := AudioAnalysis.isLoading s;
                           AudioAnalysis.error := None;
                           AudioAnalysis.result := None |};
               issued := [] |}))
  /\ (forall s s0 r,
         In (s0, r) (issued (snd (AudioAnalysis.submit env network s))) ->
         AudioAnalysis.error s0 = None).
Proof.
  split; [intros c s H; now apply text_first_request|].
  split; [intros c s; destruct c; cbn; auto|].
  split.
  - intros s f others Ht Hs.
    unfold AudioAnalysis.handleFileChange, invoke. rewrite Ht. cbn [negb].
    rewrite Z.gtb_ltb.
    replace (25 * 1024 * 1024 <? File.size f) with false
      by (symmetry; apply Z.ltb_ge; exact Hs).
    reflexivity.
  - split; [reflexivity|].
    intros s s0 r Hin. now rewrite (audio_request_state env network s s0 r Hin).
Qed.

Lemma C6_reset_before_request_witness :
  text_accepted (TextState.text (typed statement))
  /\ exists s0 later,
       issued (snd (text_submit TextAnalysisPage_tsx None
                      (service (answer 200 (Parsed truthful)) (Rejected "offline"))
                      (typed statement)))
       = (s0, predict_request None statement) :: later
       /\ TextState.result s0 = None.
Proof.
  assert (H : text_accepted (TextState.text (typed statement)))
    by (split; vm_compute; [reflexivity | discriminate]).
  split; [exact H|].
  destruct (C6_reset_before_request None
              (service (answer 200 (Parsed truthful)) (Rejected "offline")))
    as [Hs _].
  destruct (Hs TextAnalysisPage_tsx (typed statement) H)
    as (s0 & later & Hi & Hr & _).
  exists s0, later. split; [exact Hi | exact Hr].
Defined.

(** C6 as stated fails in the audio screen.  A file is accepted and
    analysed; analysing it a second time issues the request while the
    result of the first analysis is still set, and when that request fails
    the error is shown next to that result. *)
Lemma C6_audio_second_analysis :
  let f := recording "talk.mp3" "audio/mpeg" 4096 in
  let up := service (answer 200 (Parsed truthful)) (Rejected "") in
  let down := service (Rejected "Failed to fetch") (Rejected "") in
  let selected :=
    state (snd (invoke (AudioAnalysis.handleFileChange (Some [f]))
                       AudioAnalysis.initial)) in
  let first := state (snd (AudioAnalysis.submit None up selected)) in
  let second := AudioAnalysis.submit None down first in
  AudioAnalysis.result first = Some (stored truthful)
  /\ (exists s0,
         issued (snd second) = [(s0, audio_request None f)]
         /\ AudioAnalysis.result s0 = Some (stored truthful))
  /\ AudioAnalysis.result (state (snd second)) = Some (stored truthful)
  /\ AudioAnalysis.error (state (snd second)) = Some "Failed to fetch".
Proof.
  cbv zeta. split; [vm_compute; reflexivity|].
  split; [eexists; split; vm_compute; reflexivity|].
  split; vm_compute; reflexivity.
Qed.

(* ================================================================== *)
(** ** Rounding to binary64 *)

Section Binary64.

Lemma digits2_pos_bounds (m : positive) :
  2 ^ (Zpos (digits2_pos m) - 1) <= Zpos m < 2 ^ Zpos (digits2_pos m).
Proof.
  induction m as [m IH|m IH|]; cbn [digits2_pos];
    rewrite ?Pos2Z.inj_succ;
    try replace (Z.succ (Zpos (digits2_pos m)) - 1)
      with (Z.succ (Zpos (digits2_pos m) - 1)) by lia;
    rewrite ?Z.pow_succ_r by lia.
  - change (Zpos m~1) with (2 * Zpos m + 1). lia.
  - change (Zpos m~0) with (2 * Zpos m). lia.
  - cbn. lia.
Qed.

(** A property that each step preserves holds after [SpecFloat.iter_pos]. *)
Lemma iter_pos_invariant {A : Type} (f : A -> A) (Inv : Z -> A -> Prop) :
  (forall n x, 0 <= n -> Inv n x -> Inv (n + 1) (f x)) ->
  forall p n x, 0 <= n -> Inv n x -> Inv (n + Zpos p) (SpecFloat.iter_pos f p x).
Proof.
  intros Hstep. induction p as [p IH|p IH|]; intros n x Hn Hx; cbn [SpecFloat.iter_pos].
  - replace (n + Zpos p~1) with (n + 1 + Zpos p + Zpos p) by lia.
    apply IH; [lia|]. apply IH; [lia|]. now apply Hstep.
  - replace (n + Zpos p~0) with (n + Zpos p + Zpos p) by lia.
    apply IH; [lia|]. now apply IH.
  - now apply Hstep.
Qed.

Lemma shr_1_m (r : shr_record) :
  0 <= shr_m r ->
  shr_m (shr_1 r) = shr_m r / 2
  /\ shr_r (shr_1 r) = Z.odd (shr_m r)
  /\ shr_s (shr_1 r) = shr_r r || shr_s r.
Proof.
  destruct r as [m r s]. cbn [shr_m shr_r shr_s]. intros Hm.
  destruct m as [|[p|p|]|p]; cbn [shr_1 shr_m shr_r shr_s]; try lia.
  - repeat split.
  - repeat split. change (Zpos p~1) with (2 * Zpos p + 1).
    apply (Z.div_unique _ _ _ 1); lia.
  - repeat split. change (Zpos p~0) with (2 * Zpos p).
    apply (Z.div_unique _ _ _ 0); lia.
  - repeat split.
Qed.

(** Shifting a mantissa right by [p] bits divides it by [2 ^ p]; nothing
    is recorded as lost when the division is exact. *)
Lemma shr_exact (M : Z) (p : positive) :
  0 <= M ->
  shr_m (SpecFloat.iter_pos shr_1 p (Build_shr_record M false false)) = M / 2 ^ Zpos p
  /\ (M mod 2 ^ Zpos p = 0 ->
      loc_of_shr_record (SpecFloat.iter_pos shr_1 p (Build_shr_record M false false))
      = loc_Exact).
Proof.
  intros HM.
  pose (Inv := fun (n : Z) (r : shr_record) =>
                 shr_m r = M / 2 ^ n
                 /\ (M mod 2 ^ n = 0 -> shr_r r = false /\ shr_s r = false)).
  assert (H : Inv (0 + Zpos p) (SpecFloat.iter_pos shr_1 p (Build_shr_record M false false))).
  { apply iter_pos_invariant; [|lia|].
    - intros n r Hn [Hm Hx].
      assert (Hpow : 0 < 2 ^ n) by (apply Z.pow_pos_nonneg; lia).
      assert (Hr : 0 <= shr_m r) by (rewrite Hm; apply Z.div_pos; lia).
      destruct (shr_1_m r Hr) as (H1 & H2 & H3).
      unfold Inv. rewrite Z.pow_add_r, Z.pow_1_r by lia.
      split.
      + rewrite H1, Hm, Z.div_div by lia. reflexivity.
      + intros Hmod.
        assert (HMq : M = 2 ^ n * (2 * (M / (2 ^ n * 2)))).
        { pose proof (Z.div_mod M (2 ^ n * 2) ltac:(lia)). lia. }
        assert (Hdiv : M / 2 ^ n = 2 * (M / (2 ^ n * 2))).
        { rewrite HMq at 1. rewrite Z.mul_comm, Z.div_mul by lia. reflexivity. }
        assert (Hmod' : M mod 2 ^ n = 0).
        { rewrite HMq at 1. rewrite Z.mul_comm. apply Z.mod_mul. lia. }
        destruct (Hx Hmod') as [Hr0 Hs0].
        rewrite H2, H3, Hr0, Hs0, Hm, Hdiv, Z.odd_mul. split; reflexivity.
    - split; cbn [shr_m shr_r shr_s]; [now rewrite Z.pow_0_r, Z.div_1_r | auto]. }
  destruct H as [Hm Hx]. rewrite Z.add_0_l in *.
  split; [exact Hm|].
  intros Hmod. destruct (Hx Hmod) as [Hr Hs].
  destruct (SpecFloat.iter_pos shr_1 p _) as [m r s]. cbn in *. subst. reflexivity.
Qed.

Lemma fexp_binary64 (x : Z) : fexp 53 1024 x = Z.max (x - 53) (-1074).
Proof. reflexivity. Qed.

(** The first or the second shift of a rounding, on an exact mantissa. *)
Lemma shr_fexp_exact (m e : Z) :
  0 <= m ->
  exists k,
    k = Z.max 0 (fexp 53 1024 (Zdigits2 m + e) - e)
    /\ snd (shr_fexp 53 1024 m e loc_Exact) = e + k
    /\ shr_m (fst (shr_fexp 53 1024 m e loc_Exact)) = m / 2 ^ k
    /\ (m mod 2 ^ k = 0 ->
        loc_of_shr_record (fst (shr_fexp 53 1024 m e loc_Exact)) = loc_Exact).
Proof.
  intros Hm. unfold shr_fexp, shr.
  destruct (fexp 53 1024 (Zdigits2 m + e) - e) as [|p|p] eqn:Hk;
    cbn [shr_record_of_loc fst snd].
  - exists 0. cbn [shr_m loc_of_shr_record].
    rewrite Z.pow_0_r, Z.div_1_r.
    split; [lia|]. split; [lia|]. split; reflexivity.
  - exists (Zpos p). destruct (shr_exact m p Hm) as [H1 H2].
    split; [lia|]. split; [reflexivity|]. split; [exact H1 | exact H2].
  - exists 0. cbn [shr_m loc_of_shr_record].
    rewrite Z.pow_0_r, Z.div_1_r.
    split; [lia|]. split; [lia|]. split; reflexivity.
Qed.

Lemma round_nearest_even_bounds (m : Z) (l : location) :
  m <= round_nearest_even m l <= m + 1
  /\ round_nearest_even m loc_Exact = m.
Proof.
  split; [|reflexivity].
  destruct l as [|[]]; cbn [round_nearest_even]; try lia.
  destruct (Z.even m); lia.
Qed.

Section Below.

(** Mantissas and exponents of values that are at most [b * 2 ^ t]. *)
Variables b t : Z.
Hypothesis b_range : 0 < b < 2 ^ 53.
Hypothesis t_range : -1074 <= t <= 971.

Lemma exponent_below (m e : Z) :
  0 <= m -> e <= t -> m <= b * 2 ^ (t - e) ->
  fexp 53 1024 (Zdigits2 m + e) <= t.
Proof.
  intros Hm He Hle. rewrite fexp_binary64.
  apply Z.max_lub; [|lia].
  destruct m as [|p|p]; cbn [Zdigits2]; [lia| |lia].
  pose proof (digits2_pos_bounds p) as [Hd _].
  assert (Hpos : 0 < 2 ^ (t - e)) by (apply Z.pow_pos_nonneg; lia).
  assert (Hlt : 2 ^ (Zpos (digits2_pos p) - 1) < 2 ^ (53 + (t - e))).
  { rewrite Z.pow_add_r by lia. nia. }
  apply Z.pow_lt_mono_r_iff in Hlt; lia.
Qed.

Lemma shifted_below (m e k : Z) :
  0 <= m -> 0 <= k -> e + k <= t -> m <= b * 2 ^ (t - e) ->
  m / 2 ^ k <= b * 2 ^ (t - (e + k))
  /\ (m / 2 ^ k = b * 2 ^ (t - (e + k)) -> m mod 2 ^ k = 0).
Proof.
  intros Hm Hk He Hle.
  assert (Hk2 : 0 < 2 ^ k) by (apply Z.pow_pos_nonneg; lia).
  assert (Hsplit : 2 ^ (t - e) = 2 ^ (t - (e + k)) * 2 ^ k).
  { rewrite <- Z.pow_add_r by lia. f_equal. lia. }
  rewrite Hsplit in Hle.
  pose proof (Z.div_mod m (2 ^ k) ltac:(lia)) as Hdm.
  pose proof (Z.mod_pos_bound m (2 ^ k) Hk2) as Hmod.
  split.
  - apply Z.div_le_upper_bound; lia.
  - intros Heq. rewrite Heq in Hdm. nia.
Qed.

(** Rounding a positive value that is at most [b * 2 ^ t] to binary64
    gives zero or a positive number that is at most [b * 2 ^ t]. *)
Lemma round_below (M : positive) (E : Z) :
  E <= t -> Zpos M <= b * 2 ^ (t - E) ->
  binary_round_aux 53 1024 false (Zpos M) E loc_Exact = S754_zero false
  \/ exists m e,
       binary_round_aux 53 1024 false (Zpos M) E loc_Exact = S754_finite false m e
       /\ e <= t /\ Zpos m <= b * 2 ^ (t - e).
Proof.
  intros HE HM. unfold binary_round_aux.
  destruct (shr_fexp_exact (Zpos M) E ltac:(lia)) as (k1 & Hk1 & He1 & Hm1 & Hx1).
  destruct (shr_fexp 53 1024 (Zpos M) E loc_Exact) as [mrs1 e1].
  cbn [fst snd] in *.
  pose proof (exponent_below (Zpos M) E ltac:(lia) HE HM) as Hf1.
  assert (Hk1' : 0 <= k1) by lia.
  assert (He1' : E + k1 <= t) by lia.
  destruct (shifted_below (Zpos M) E k1 ltac:(lia) Hk1' He1' HM) as [Hle1 Heq1].
  rewrite <- He1, <- Hm1 in Hle1, Heq1.
  assert (Hm1pos : 0 <= shr_m mrs1).
  { rewrite Hm1. apply Z.div_pos; [lia|]. apply Z.pow_pos_nonneg; lia. }
  set (m2 := round_nearest_even (shr_m mrs1) (loc_of_shr_record mrs1)).
  assert (Hm2 : 0 <= m2 <= b * 2 ^ (t - e1)).
  { destruct (round_nearest_even_bounds (shr_m mrs1) (loc_of_shr_record mrs1))
      as [Hb _]. fold m2 in Hb. split; [lia|].
    destruct (Z.eq_dec (shr_m mrs1) (b * 2 ^ (t - e1))) as [Heq|Hne].
    - unfold m2. rewrite (Hx1 (Heq1 Heq)). cbn [round_nearest_even]. lia.
    - lia. }
  destruct (shr_fexp_exact m2 e1 ltac:(lia)) as (k2 & Hk2 & He2 & Hm3 & _).
  destruct (shr_fexp 53 1024 m2 e1 loc_Exact) as [mrs2 e2].
  cbn [fst snd] in *.
  pose proof (exponent_below m2 e1 ltac:(lia) ltac:(lia) ltac:(lia)) as Hf2.
  assert (Hk2' : 0 <= k2) by lia.
  assert (He2' : e1 + k2 <= t) by lia.
  destruct (shifted_below m2 e1 k2 ltac:(lia) Hk2' He2' ltac:(lia)) as [Hle2 _].
  rewrite <- He2, <- Hm3 in Hle2.
  assert (Hm3pos : 0 <= shr_m mrs2).
  { rewrite Hm3. apply Z.div_pos; [lia|]. apply Z.pow_pos_nonneg; lia. }
  destruct (shr_m mrs2) as [|m3|m3]; [left; reflexivity| |lia].
  right. exists m3, e2.
  replace (e2 <=? 1024 - 53) with true by (symmetry; apply Z.leb_le; lia).
  repeat split; lia.
Qed.

End Below.

End Binary64.

(* ================================================================== *)
(** ** The confidence shown *)

Lemma ofZ_100 : Number.ofZ 100 = S754_finite false 7036874417766400 (-46).
Proof. reflexivity. Qed.

Lemma ofZ_1 : Number.ofZ 1 = S754_finite false 4503599627370496 (-52).
Proof. reflexivity. Qed.

Lemma ofZ_0 : Number.ofZ 0 = S754_zero false.
Proof. reflexivity. Qed.

(** Comparison of two positive numbers in canonical form. *)
Lemma leb_finite (m k : positive) (e f : Z) :
  SFleb (S754_finite false m e) (S754_finite false k f) = true ->
  e < f \/ (e = f /\ Zpos m <= Zpos k).
Proof.
  unfold SFleb. cbn [SFcompare]. intros H.
  destruct (Z.compare_spec e f) as [He|He|He].
  - right. split; [exact He|]. intros Hgt.
    change (PosDef.Pos.compare_cont Eq m k = Gt) in Hgt.
    rewrite Hgt in H. discriminate H.
  - left. exact He.
  - discriminate H.
Qed.

(** A fraction is a zero, or positive with a value that is at most 1. *)
Lemma fraction_cases (c : Number.t) :
  fraction c ->
  (exists s, c = S754_zero s)
  \/ exists m e, c = S754_finite false m e /\ e <= -52 /\ Zpos m <= 2 ^ (- e).
Proof.
  intros (Hv & H0 & H1). rewrite ofZ_0 in H0. rewrite ofZ_1 in H1.
  destruct c as [s|s| |s m e].
  - left. now exists s.
  - destruct s; [discriminate H0 | discriminate H1].
  - discriminate H1.
  - right. destruct s; [discriminate H0|]. exists m, e. split; [reflexivity|].
    unfold Number.valid, valid_binary, bounded, canonical_mantissa in Hv.
    apply andb_true_iff in Hv. destruct Hv as [Hc _].
    apply Z.eqb_eq in Hc. rewrite fexp_binary64 in Hc.
    pose proof (digits2_pos_bounds m) as [_ Hd].
    assert (Hd53 : Zpos (digits2_pos m) <= 53) by lia.
    assert (Hm53 : Zpos m < 2 ^ 53).
    { eapply Z.lt_le_trans; [exact Hd|]. apply Z.pow_le_mono_r; lia. }
    apply leb_finite in H1. destruct H1 as [He|[He Hm]].
    + split; [lia|].
      eapply Z.le_trans; [apply Z.lt_le_incl, Hm53|].
      apply Z.pow_le_mono_r; lia.
    + subst e. split; [lia|]. exact Hm.
Qed.

(** The product of a positive fraction and 100 is zero or a positive number
    that is at most 100. *)
Lemma mul_100_below (m : positive) (e : Z) :
  e <= -52 -> Zpos m <= 2 ^ (- e) ->
  Number.mul (S754_finite false m e) (Number.ofZ 100) = S754_zero false
  \/ exists m' e',
       Number.mul (S754_finite false m e) (Number.ofZ 100) = S754_finite false m' e'
       /\ e' <= 2 /\ Zpos m' <= 25 * 2 ^ (2 - e').
Proof.
  intros He Hm. unfold Number.mul. rewrite ofZ_100. cbn [SFmul xorb].
  apply round_below; try lia.
  rewrite Pos2Z.inj_mul.
  replace (2 - (e + -46)) with (48 + - e) by lia.
  rewrite Z.pow_add_r by lia.
  change (Zpos 7036874417766400) with (25 * 2 ^ 48).
  assert (0 < 2 ^ 48) by reflexivity. nia.
Qed.

(** The integers from 0 to 100 are numbers. *)
Lemma toInteger_ofZ (n : Z) :
  0 <= n <= 100 -> Number.toInteger (Number.ofZ n) = Some n.
Proof.
  intros Hn.
  assert (Hall : forallb (fun i => match Number.toInteger (Number.ofZ (Z.of_nat i)) with
                                   | Some j => j =? Z.of_nat i
                                   | None => false
                                   end) (seq 0 101) = true)
    by (vm_compute; reflexivity).
  rewrite forallb_forall in Hall.
  specialize (Hall (Z.to_nat n)). rewrite Z2Nat.id in Hall by lia.
  assert (Hin : In (Z.to_nat n) (seq 0 101)) by (apply in_seq; lia).
  specialize (Hall Hin).
  destruct (Number.toInteger (Number.ofZ n)) as [j|]; [|discriminate].
  apply Z.eqb_eq in Hall. now subst.
Qed.

(** [Math.round] of a positive number that is at most 100 is an integer
    between 0 and 100: the number rounded half up. *)
Lemma round_percent (m : positive) (e : Z) :
  e <= 2 -> Zpos m <= 25 * 2 ^ (2 - e) ->
  exists n q,
    Number.toInteger (Number.round (S754_finite false m e)) = Some n
    /\ 0 <= n <= 100
    /\ Number.toQ (S754_finite false m e) = Some q
    /\ n = Qfloor (Qplus q (Qmake 1 2)).
Proof.
  intros He Hm. unfold Number.round, Number.toQ.
  destruct (Z.leb_spec 0 e) as [Hpos|Hneg].
  - exists (Zpos m * 2 ^ e), (Qmake (Zpos m * 2 ^ e) 1).
    cbn [Number.toInteger cond_Zopp].
    replace (0 <=? e) with true by (symmetry; apply Z.leb_le; lia).
    assert (He2 : 0 < 2 ^ e) by (apply Z.pow_pos_nonneg; lia).
    assert (Hsplit : 2 ^ (2 - e) * 2 ^ e = 4).
    { rewrite <- Z.pow_add_r by lia. replace (2 - e + e) with 2 by lia. reflexivity. }
    split; [reflexivity|]. split; [nia|]. split; [reflexivity|].
    unfold Qfloor, Qplus. cbn [Qnum Qden].
    change (Zpos (1 * 2)) with 2.
    apply Z.div_unique with (r := 1); lia.
  - set (k := - e).
    assert (Hk : 0 < k) by (unfold k; lia).
    assert (Hk2 : 0 < 2 ^ k) by (apply Z.pow_pos_nonneg; lia).
    cbn [cond_Zopp].
    set (n := (2 * Zpos m + 2 ^ k) / 2 ^ (k + 1)).
    assert (Hpow : 2 ^ (k + 1) = 2 ^ k * 2)
      by (rewrite Z.pow_add_r by lia; reflexivity).
    assert (Hbound : 2 ^ (2 - e) = 4 * 2 ^ k).
    { replace (2 - e) with (2 + k) by (unfold k; lia).
      rewrite Z.pow_add_r by lia. reflexivity. }
    assert (Hn : 0 <= n <= 100).
    { unfold n. rewrite Hpow. split.
      - apply Z.div_pos; lia.
      - apply Z.lt_succ_r. apply Z.div_lt_upper_bound; lia. }
    exists n, (Qmake (Zpos m) (Z.to_pos (2 ^ k))).
    split; [apply (toInteger_ofZ n Hn)|]. split; [exact Hn|]. split; [reflexivity|].
    unfold Qfloor, Qplus. cbn [Qnum Qden].
    rewrite Pos2Z.inj_mul, Z2Pos.id by lia.
    unfold n. rewrite Hpow. f_equal. lia.
Qed.

(** What the card shows for a fraction: [Math.round(confidence * 100)]. *)
Lemma percent_of_fraction (c : Number.t) :
  fraction c ->
  exists n q,
    Number.toInteger (Number.round (Number.mul c (Number.ofZ 100))) = Some n
    /\ 0 <= n <= 100
    /\ Number.toQ (Number.mul c (Number.ofZ 100)) = Some q
    /\ n = Qfloor (Qplus q (Qmake 1 2)).
Proof.
  intros Hc. destruct (fraction_cases c Hc) as [[s ->] | (m & e & -> & He & Hm)].
  - exists 0, (Qmake 0 1). rewrite ofZ_100. cbn. repeat split; lia.
  - destruct (mul_100_below m e He Hm) as [-> | (m' & e' & -> & He' & Hm')].
    + exists 0, (Qmake 0 1). cbn. repeat split; lia.
    + apply round_percent; assumption.
Qed.

(** The rounding is that of the product the screen stores, itself a binary64
    number: the binary64 value of 0.355 is below 355/1000, its product with
    100 is 35.5 exactly, and the card shows 36. *)
Lemma percent_of_0355 :
  c0355 = S754_finite false 6395111470866104 (-54)
  /\ 6395111470866104 * 1000 < 355 * 2 ^ 54
  /\ Number.mul c0355 (Number.ofZ 100) = S754_finite false 4996180836614144 (-47)
  /\ 4996180836614144 * 2 = 71 * 2 ^ 47
  /\ Number.toInteger (Number.round (Number.mul c0355 (Number.ofZ 100))) = Some 36.
Proof. repeat split; vm_compute; reflexivity. Qed.

(** Once the predict reply has been read, the result of a text screen is
    set, whatever becomes of the explain request. *)
Lemma text_result_kept
    (c : Copy) (env : option string) (network : Request -> Fetch)
    (s : TextState.t) (presp : Response) (data : Body.t) :
  text_accepted (TextState.text s) ->
  network (predict_request env (TextState.text s)) = Resolved presp ->
  ok presp = true ->
  json presp = Parsed data ->
  TextState.result (state (snd (text_submit c env network s))) = Some (stored data).
Proof.
  intros H Hnet Hok Hjson. unfold predict_request in Hnet.
  destruct c; enter_submit H; rewrite Hnet; cbn; rewrite Hok; cbn;
    rewrite Hjson; cbn; split_run network; reflexivity.
Qed.

Lemma audio_result_set
    (env : option string) (network : Request -> Fetch)
    (s : AudioAnalysis.t) (f : File.t) (presp : Response) (data : Body.t) :
  AudioAnalysis.file s = Some f ->
  lie_fixture (File.name f) = false ->
  network (audio_request env f) = Resolved presp ->
  ok presp = true ->
  json presp = Parsed data ->
  AudioAnalysis.result (state (snd (AudioAnalysis.submit env network s)))
  = Some (stored data).
Proof.
  intros Hf Hlie Hnet Hok Hjson. unfold audio_request in Hnet.
  unfold lie_fixture in Hlie.
  unfold AudioAnalysis.submit, AudioAnalysis.handleSubmit, invoke,
    AudioAnalysis.BACKEND_URL.
  rewrite Hf, Hlie. step_handler. rewrite Hnet; cbn; rewrite Hok; cbn.
  rewrite Hjson. reflexivity.
Qed.

(** The card of a result with a label. *)
Lemma text_card (c : Copy) (s : TextState.t) (r : Result.t) (p : string) :
  TextState.result s = Some r ->
  Result.label r = Some p ->
  exists v card,
    text_render c s = Some v
    /\ Screen.predictionResult v = Some card
    /\ PredictionResult.badge card = p
    /\ PredictionResult.confidencePercent card = Number.round (Result.confidence r).
Proof.
  intros Hr Hp.
  destruct c; unfold text_render, TextAnalysis.render, TextAnalysisPage.render,
    PredictionResult.render; rewrite Hr; cbn; rewrite Hp; cbn;
    eexists; eexists; repeat split.
Qed.

Lemma audio_card (s : AudioAnalysis.t) (r : Result.t) (p : string) :
  AudioAnalysis.result s = Some r ->
  Result.label r = Some p ->
  exists v card,
    AudioAnalysis.render s = Some v
    /\ Screen.predictionResult v = Some card
    /\ PredictionResult.badge card = p
    /\ PredictionResult.confidencePercent card = Number.round (Result.confidence r).
Proof.
  intros Hr Hp.
  unfold AudioAnalysis.render, PredictionResult.render; rewrite Hr; cbn;
    rewrite Hp; cbn; eexists; eexists; repeat split.
Qed.

(** C5: for a successful predict reply with prediction [p] and a confidence
    [c] that is a fraction in [0,1], every screen stores label [p] with
    confidence [c * 100] and shows a card with label [p] and percentage
    [Math.round(c * 100)], an integer between 0 and 100 that is the product
    rounded half up.  The reply with prediction "Truthful" and confidence
    0.732 is shown as "Truthful" with 73 percent. *)
Theorem C5_confidence_percent :
  (forall (env : option string) (network : Request -> Fetch)
          (presp : Response) (data : Body.t) (p : string) (c : Number.t),
      ok presp = true ->
      json presp = Parsed data ->
      Body.prediction data = Some p ->
      Body.confidence data = Some c ->
      fraction c ->
      (forall copy s,
          text_accepted (TextState.text s) ->
          network (predict_request env (TextState.text s)) = Resolved presp ->
          TextState.result (state (snd (text_submit copy env network s)))
          = Some {| Result.label := Some p;
                    Result.confidence := Number.mul c (Number.ofZ 100) |}
          /\ displays (text_render copy (state (snd (text_submit copy env network s))))
                      p (Number.mul c (Number.ofZ 100)))
      /\ (forall s f,
             AudioAnalysis.file s = Some f ->
             lie_fixture (File.name f) = false ->
             network (audio_request env f) = Resolved presp ->
             AudioAnalysis.result (state (snd (AudioAnalysis.submit env network s)))
             = Some {| Result.label := Some p;
                       Result.confidence := Number.mul c (Number.ofZ 100) |}
             /\ displays (AudioAnalysis.render
                            (state (snd (AudioAnalysis.submit env network s))))
                         p (Number.mul c (Number.ofZ 100))))
  /\ (exists v card,
         TextAnalysis.render
           (state (snd (TextAnalysis.submit None
                          (service (answer 200 (Parsed truthful)) (Rejected "offline"))
                          (typed statement)))) = Some v
         /\ Screen.predictionResult v = Some card
         /\ PredictionResult.badge card = "Truthful"
         /\ Number.toInteger (PredictionResult.confidencePercent card) = Some 73).
Proof.
  split.
  - intros env network presp data p c Hok Hjson Hp Hc Hfrac.
    assert (Hstored : stored data
                      = {| Result.label := Some p;
                           Result.confidence := Number.mul c (Number.ofZ 100) |})
      by (unfold stored; rewrite Hp, Hc; reflexivity).
    destruct (percent_of_fraction c Hfrac) as (n & q & Hn & Hrange & Hq & Hfloor).
    split.
    + intros copy s H Hnet.
      pose proof (text_result_kept copy env network s presp data H Hnet Hok Hjson)
        as Hres.
      rewrite Hstored in Hres. split; [exact Hres|].
      destruct (text_card copy _ _ p Hres eq_refl) as (v & card & Hv & Hcard & Hb & Hpc).
      cbn in Hpc.
      exists v, card, n, q. rewrite Hpc. auto 10.
    + intros s f Hf Hlie Hnet.
      pose proof (audio_result_set env network s f presp data Hf Hlie Hnet Hok Hjson)
        as Hres.
      rewrite Hstored in Hres. split; [exact Hres|].
      destruct (audio_card _ _ p Hres eq_refl) as (v & card & Hv & Hcard & Hb & Hpc).
      cbn in Hpc.
      exists v, card, n, q. rewrite Hpc. auto 10.
  - eexists; eexists. split; [vm_compute; reflexivity|].
    split; [reflexivity|]. split; vm_compute; reflexivity.
Qed.

Lemma C5_confidence_percent_witness :
  fraction c0732
  /\ displays (AudioAnalysis.render
                 (state (snd (AudioAnalysis.submit None
                                (service (answer 200 (Parsed truthful)) (Rejected ""))
                                (analysed (recording "talk.mp3" "audio/mpeg" 4096)
                                          (stored truthful))))))
              "Truthful" (Number.mul c0732 (Number.ofZ 100)).
Proof.
  assert (Hfrac : fraction c0732) by (repeat split; vm_compute; reflexivity).
  split; [exact Hfrac|].
  destruct C5_confidence_percent as [Hall _].
  destruct (Hall None (service (answer 200 (Parsed truthful)) (Rejected ""))
              {| status := 200; json := Parsed truthful |} truthful "Truthful" c0732
              eq_refl eq_refl eq_refl eq_refl Hfrac) as [_ Haudio].
  refine (proj2 (Haudio (analysed (recording "talk.mp3" "audio/mpeg" 4096)
                                  (stored truthful))
                        (recording "talk.mp3" "audio/mpeg" 4096) eq_refl _ _));
    vm_compute; reflexivity.
Defined.

(* ================================================================== *)
(** ** Further properties of the text screens *)

(** The check for a blank text comes first: a text of white space only gets
    the first message whatever its length, and the second message is that
    of a text that is not blank and shorter than 20 characters. *)
Theorem text_rejection_message
    (c : Copy) (env : option string) (network : Request -> Fetch) (s : TextState.t) :
  (whitespaceOnly (TextState.text s) = true ->
   TextState.error (state (snd (text_submit c env network s)))
   = Some "Please enter some text to analyze")
  /\ (whitespaceOnly (TextState.text s) = false ->
      JS.length (TextState.text s) < 20 ->
      TextState.error (state (snd (text_submit c env network s)))
      = Some "Please enter at least 20 characters for more accurate analysis").
Proof.
  split.
  - intros Hw.
    destruct c; unfold text_submit, TextAnalysis.submit, TextAnalysisPage.submit,
      TextAnalysis.handleSubmit, TextAnalysisPage.handleSubmit, invoke;
      rewrite trim_truthy, Hw; reflexivity.
  - intros Hw Hl. apply Z.ltb_lt in Hl.
    destruct c; unfold text_submit, TextAnalysis.submit, TextAnalysisPage.submit,
      TextAnalysis.handleSubmit, TextAnalysisPage.handleSubmit, invoke;
      rewrite trim_truthy, Hw, Hl; reflexivity.
Qed.

Lemma text_rejection_message_witness :
  whitespaceOnly (TextState.text (typed "                         ")) = true
  /\ TextState.error
       (state (snd (text_submit TextAnalysis_tsx None (service (Rejected "") (Rejected ""))
                      (typed "                         "))))
     = Some "Please enter some text to analyze".
Proof.
  split; [reflexivity|].
  exact (proj1 (text_rejection_message TextAnalysis_tsx None
                  (service (Rejected "") (Rejected ""))
                  (typed "                         ")) eq_refl).
Defined.

(** No exception leaves a submit handler: whatever the state and whatever
    the service does, the handlers of the three screens complete
    normally. *)
Theorem submit_never_throws (env : option string) (network : Request -> Fetch) :
  (forall c s, fst (text_submit c env network s) = Normal tt)
  /\ (forall s, fst (AudioAnalysis.submit env network s) = Normal tt).
Proof.
  split.
  - intros c s.
    destruct c; unfold text_submit, TextAnalysis.submit, TextAnalysisPage.submit,
      TextAnalysis.handleSubmit, TextAnalysisPage.handleSubmit, invoke,
      TextAnalysis.BACKEND_URL, TextAnalysisPage.BACKEND_URL;
      (destruct (JS.truthy (JS.trim (TextState.text s))); cbn; [|reflexivity]);
      (destruct (JS.length (TextState.text s) <? 20); cbn; [reflexivity|]);
      step_handler; split_run network; reflexivity.
  - intros s.
    unfold AudioAnalysis.submit, AudioAnalysis.handleSubmit, invoke,
      AudioAnalysis.BACKEND_URL.
    destruct (AudioAnalysis.file s) as [g|]; [|reflexivity].
    destruct (JS.endsWith _ _ && JS.includes _ _); [reflexivity|].
    step_handler. split_run network; reflexivity.
Qed.

(** An accepted submission of a text screen ends with both loading flags
    off and the text as it was, whatever the service does. *)
Theorem text_flags_cleared
    (c : Copy) (env : option string) (network : Request -> Fetch) (s : TextState.t) :
  text_accepted (TextState.text s) ->
  TextState.isLoading (state (snd (text_submit c env network s))) = false
  /\ TextState.isExplaining (state (snd (text_submit c env network s))) = false
  /\ TextState.text (state (snd (text_submit c env network s))) = TextState.text s.
Proof.
  intros H.
  destruct c; enter_submit H; split_run network; repeat split.
Qed.

Lemma text_flags_cleared_witness :
  text_accepted (TextState.text (typed statement))
  /\ TextState.isLoading
       (state (snd (text_submit TextAnalysis_tsx None
                      (service (answer 200 (Parsed truthful)) (Rejected "offline"))
                      (typed statement)))) = false.
Proof.
  assert (H : text_accepted (TextState.text (typed statement)))
    by (split; vm_compute; [reflexivity | discriminate]).
  split; [exact H|].
  exact (proj1 (text_flags_cleared TextAnalysis_tsx None
                  (service (answer 200 (Parsed truthful)) (Rejected "offline"))
                  (typed statement) H)).
Defined.

(** The requests of an accepted submission of a text screen: the predict
    request with the text as typed, followed by the explain request with
    the same text exactly when the predict reply is a success whose body
    parses; the explain request is issued with the new result set and the
    explaining flag on. *)
Theorem text_request_sequence
    (c : Copy) (env : option string) (network : Request -> Fetch) (s : TextState.t) :
  text_accepted (TextState.text s) ->
  let s0 := TextState.setResult None
              (TextState.setExplanation None
                 (TextState.setError None (TextState.setIsLoading true s))) in
  let first := (s0, predict_request env (TextState.text s)) in
  issued (snd (text_submit c env network s))
  = match network (predict_request env (TextState.text s)) with
    | Rejected _ => [first]
    | Resolved presp =>
        if ok presp then
          match json presp with
          | SyntaxError _ => [first]
          | Parsed data =>
              [first;
               (TextState.setIsExplaining true
                  (TextState.setResult (Some (stored data)) s0),
                explain_request env (TextState.text s))]
          end
        else [first]
    end.
Proof.
  intros H. cbv zeta. unfold predict_request, explain_request.
  destruct c; enter_submit H; split_run network; reflexivity.
Qed.

Lemma text_request_sequence_witness :
  text_accepted (TextState.text (typed statement))
  /\ map snd (issued (snd (text_submit TextAnalysisPage_tsx None
                             (service (answer 200 (Parsed truthful)) (Rejected "offline"))
                             (typed statement))))
     = [predict_request None statement; explain_request None statement].
Proof.
  assert (H : text_accepted (TextState.text (typed statement)))
    by (split; vm_compute; [reflexivity | discriminate]).
  split; [exact H|].
  rewrite (text_request_sequence TextAnalysisPage_tsx None
             (service (answer 200 (Parsed truthful)) (Rejected "offline"))
             (typed statement) H).
  reflexivity.
Defined.

(** A submission that succeeds in both phases: when the predict reply and
    the explain reply are successes and the explanation is not empty, both
    copies end in the same state, with the result, that explanation, no
    error and both flags off. *)
Theorem text_success
    (c : Copy) (env : option string) (network : Request -> Fetch) (s : TextState.t)
    (presp eresp : Response) (data expData : Body.t) (e : string) :
  text_accepted (TextState.text s) ->
  network (predict_request env (TextState.text s)) = Resolved presp ->
  ok presp = true ->
  json presp = Parsed data ->
  network (explain_request env (TextState.text s)) = Resolved eresp ->
  ok eresp = true ->
  json eresp = Parsed expData ->
  Body.explanation expData = Some e ->
  e <> "" ->
  state (snd (text_submit c env network s))
  = {| TextState.text := TextState.text s;
       TextState.isLoading := false;
       TextState.isExplaining := false;
       TextState.error := None;
       TextState.result := Some (stored data);
       TextState.explanation := Some e |}.
Proof.
  intros H Hnet Hok Hjson Hexp Heok Hejson He Hne.
  unfold predict_request in Hnet. unfold explain_request in Hexp.
  apply truthy_nonempty in Hne.
  destruct c; enter_submit H; rewrite Hnet; cbn; rewrite Hok; cbn;
    rewrite Hjson; cbn; rewrite Hexp; cbn; rewrite Heok; cbn;
    rewrite Hejson; cbn; rewrite He; rewrite ?or_idem by exact Hne; reflexivity.
Qed.

Lemma text_success_witness :
  text_accepted (TextState.text (typed statement))
  /\ TextState.explanation
       (state (snd (text_submit TextAnalysis_tsx None
                      (service (answer 200 (Parsed truthful))
                               (answer 200 (Parsed (reply None None
                                                      (Some "Hedged wording.") None))))
                      (typed statement))))
     = Some "Hedged wording.".
Proof.
  assert (H : text_accepted (TextState.text (typed statement)))
    by (split; vm_compute; [reflexivity | discriminate]).
  split; [exact H|].
  rewrite (text_success TextAnalysis_tsx None
             (service (answer 200 (Parsed truthful))
                      (answer 200 (Parsed (reply None None (Some "Hedged wording.") None))))
             (typed statement)
             {| status := 200; json := Parsed truthful |}
             {| status := 200;
                json := Parsed (reply None None (Some "Hedged wording.") None) |}
             truthful (reply None None (Some "Hedged wording.") None)
             "Hedged wording."
             H eq_refl eq_refl eq_refl eq_refl eq_refl eq_refl eq_refl
             ltac:(discriminate)).
  reflexivity.
Defined.

(** A predict reply that cannot be read: when the predict request throws,
    or its reply is a success whose body is not JSON, the error is the
    message thrown (the generic message of the copy when it is empty), no
    result and no explanation are set, and the explain request is not
    issued. *)
Theorem text_predict_unreadable
    (c : Copy) (env : option string) (network : Request -> Fetch) (s : TextState.t)
    (message : string) :
  text_accepted (TextState.text s) ->
  network (predict_request env (TextState.text s)) = Rejected message
  \/ (exists presp,
         network (predict_request env (TextState.text s)) = Resolved presp
         /\ ok presp = true /\ json presp = SyntaxError message) ->
  state (snd (text_submit c env network s))
  = {| TextState.text := TextState.text s;
       TextState.isLoading := false;
       TextState.isExplaining := false;
       TextState.error := Some (JS.or (Some message) (text_failure c));
       TextState.result := None;
       TextState.explanation := None |}
  /\ map snd (issued (snd (text_submit c env network s)))
     = [predict_request env (TextState.text s)].
Proof.
  intros H [Hnet | (presp & Hnet & Hok & Hjson)]; unfold predict_request in *.
  - destruct c; enter_submit H; rewrite Hnet; cbn; split; reflexivity.
  - destruct c; enter_submit H; rewrite Hnet; cbn; rewrite Hok; cbn;
      rewrite Hjson; cbn; split; reflexivity.
Qed.

Lemma text_predict_unreadable_witness :
  text_accepted (TextState.text (typed statement))
  /\ TextState.error
       (state (snd (text_submit TextAnalysisPage_tsx None
                      (service (Rejected "") (Rejected ""))
                      (typed statement))))
     = Some "Failed to connect to the prediction API. Ensure the Flask backend is running.".
Proof.
  assert (H : text_accepted (TextState.text (typed statement)))
    by (split; vm_compute; [reflexivity | discriminate]).
  split; [exact H|].
  rewrite (proj1 (text_predict_unreadable TextAnalysisPage_tsx None
                    (service (Rejected "") (Rejected "")) (typed statement) ""
                    H (or_introl eq_refl))).
  reflexivity.
Defined.

(** An explain reply that is a success but whose body is not JSON: in both
    copies the error is the message of the parse failure (the generic
    message of the copy when it is empty), the result of the predict phase
    stays set, and no explanation is set. *)
Theorem text_explain_unparseable
    (c : Copy) (env : option string) (network : Request -> Fetch) (s : TextState.t)
    (presp eresp : Response) (data : Body.t) (message : string) :
  text_accepted (TextState.text s) ->
  network (predict_request env (TextState.text s)) = Resolved presp ->
  ok presp = true ->
  json presp = Parsed data ->
  network (explain_request env (TextState.text s)) = Resolved eresp ->
  ok eresp = true ->
  json eresp = SyntaxError message ->
  state (snd (text_submit c env network s))
  = {| TextState.text := TextState.text s;
       TextState.isLoading := false;
       TextState.isExplaining := false;
       TextState.error := Some (JS.or (Some message) (text_failure c));
       TextState.result := Some (stored data);
       TextState.explanation := None |}.
Proof.
  intros H Hnet Hok Hjson Hexp Heok Hejson.
  unfold predict_request in Hnet. unfold explain_request in Hexp.
  destruct c; enter_submit H; rewrite Hnet; cbn; rewrite Hok; cbn;
    rewrite Hjson; cbn; rewrite Hexp; cbn; rewrite Heok; cbn;
    rewrite Hejson; reflexivity.
Qed.

Lemma text_explain_unparseable_witness :
  text_accepted (TextState.text (typed statement))
  /\ TextState.error
       (state (snd (text_submit TextAnalysis_tsx None
                      (service (answer 200 (Parsed truthful))
                               (answer 200 (SyntaxError "Unexpected end of JSON input")))
                      (typed statement))))
     = Some "Unexpected end of JSON input".
Proof.
  assert (H : text_accepted (TextState.text (typed statement)))
    by (split; vm_compute; [reflexivity | discriminate]).
  split; [exact H|].
  rewrite (text_explain_unparseable TextAnalysis_tsx None
             (service (answer 200 (Parsed truthful))
                      (answer 200 (SyntaxError "Unexpected end of JSON input")))
             (typed statement)
             {| status := 200; json := Parsed truthful |}
             {| status := 200; json := SyntaxError "Unexpected end of JSON input" |}
             truthful "Unexpected end of JSON input"
             H eq_refl eq_refl eq_refl eq_refl eq_refl eq_refl).
  reflexivity.
Defined.



(* ================================================================== *)
(** ** Further properties of the audio screen *)

(** Submitting with no file selected sets the message asking for a file,
    changes nothing else and issues no request; the submit button is
    disabled in such a state. *)
Theorem audio_submit_without_file
    (env : option string) (network : Request -> Fetch) (s : AudioAnalysis.t) :
  AudioAnalysis.file s = None ->
  AudioAnalysis.submit env network s
  = (Normal tt,
     {| state := AudioAnalysis.setError
                   (Some "Please select an audio file to analyze") s;
        issued := [] |})
  /\ AudioAnalysis.submitDisabled s = true.
Proof.
  intros Hf.
  unfold AudioAnalysis.submit, AudioAnalysis.handleSubmit,
    AudioAnalysis.submitDisabled, invoke.
  rewrite Hf. split; reflexivity.
Qed.

Lemma audio_submit_without_file_witness :
  AudioAnalysis.file AudioAnalysis.initial = None
  /\ AudioAnalysis.error
       (state (snd (AudioAnalysis.submit None (service (Rejected "") (Rejected ""))
                      AudioAnalysis.initial)))
     = Some "Please select an audio file to analyze".
Proof.
  split; [reflexivity|].
  rewrite (proj1 (audio_submit_without_file None (service (Rejected "") (Rejected ""))
                    AudioAnalysis.initial eq_refl)).
  reflexivity.
Defined.

(** An audio-predict reply that cannot be read: when the request throws,
    or its reply is a success whose body is not JSON, the error is the
    message thrown (the generic message when it is empty), the loading flag
    is off, and the file and the result are as they were before. *)
Theorem audio_predict_unreadable
    (env : option string) (network : Request -> Fetch) (s : AudioAnalysis.t)
    (f : File.t) (message : string) :
  AudioAnalysis.file s = Some f ->
  lie_fixture (File.name f) = false ->
  network (audio_request env f) = Rejected message
  \/ (exists presp,
         network (audio_request env f) = Resolved presp
         /\ ok presp = true /\ json presp = SyntaxError message) ->
  state (snd (AudioAnalysis.submit env network s))
  = {| AudioAnalysis.file := Some f;
       AudioAnalysis.isLoading := false;
       AudioAnalysis.error :=
         Some (JS.or (Some message) "Failed to analyze audio. Please try again.");
       AudioAnalysis.result := AudioAnalysis.result s |}
  /\ map snd (issued (snd (AudioAnalysis.submit env network s)))
     = [audio_request env f].
Proof.
  intros Hf Hlie Hnet. unfold lie_fixture in Hlie. unfold audio_request in *.
  unfold AudioAnalysis.submit, AudioAnalysis.handleSubmit, invoke,
    AudioAnalysis.BACKEND_URL.
  rewrite Hf, Hlie. step_handler.
  destruct Hnet as [Hnet | (presp & Hnet & Hok & Hjson)].
  - rewrite Hnet; cbn. unfold AudioAnalysis.setError, AudioAnalysis.setIsLoading; cbn.
    rewrite Hf. split; reflexivity.
  - rewrite Hnet; cbn; rewrite Hok; cbn; rewrite Hjson; cbn.
    unfold AudioAnalysis.setError, AudioAnalysis.setIsLoading; cbn.
    rewrite Hf. split; reflexivity.
Qed.

Lemma audio_predict_unreadable_witness :
  AudioAnalysis.file (analysed (recording "talk.mp3" "audio/mpeg" 4096) (stored truthful))
  = Some (recording "talk.mp3" "audio/mpeg" 4096)
  /\ AudioAnalysis.result
       (state (snd (AudioAnalysis.submit None
                      (service (Rejected "Failed to fetch") (Rejected ""))
                      (analysed (recording "talk.mp3" "audio/mpeg" 4096)
                                (stored truthful)))))
     = Some (stored truthful).
Proof.
  split; [reflexivity|].
  rewrite (proj1 (audio_predict_unreadable None
                    (service (Rejected "Failed to fetch") (Rejected ""))
                    (analysed (recording "talk.mp3" "audio/mpeg" 4096) (stored truthful))
                    (recording "talk.mp3" "audio/mpeg" 4096) "Failed to fetch"
                    eq_refl eq_refl (or_introl eq_refl))).
  reflexivity.
Defined.

(** A successful analysis of an audio file: for a file that is not the
    fixture and a reply that is a success whose body parses, the screen
    ends with the result of the reply, no error and the loading flag off,
    after one request that carries the file. *)
Theorem audio_success
    (env : option string) (network : Request -> Fetch) (s : AudioAnalysis.t)
    (f : File.t) (presp : Response) (data : Body.t) :
  AudioAnalysis.file s = Some f ->
  lie_fixture (File.name f) = false ->
  network (audio_request env f) = Resolved presp ->
  ok presp = true ->
  json presp = Parsed data ->
  AudioAnalysis.submit env network s
  = (Normal tt,
     {| state := {| AudioAnalysis.file := Some f;
                    AudioAnalysis.isLoading := false;
                    AudioAnalysis.error := None;
                    AudioAnalysis.result := Some (stored data) |};
        issued := [(AudioAnalysis.setError None (AudioAnalysis.setIsLoading true s),
                    audio_request env f)] |}).
Proof.
  intros Hf Hlie Hnet Hok Hjson. unfold lie_fixture in Hlie. unfold audio_request in *.
  unfold AudioAnalysis.submit, AudioAnalysis.handleSubmit, invoke,
    AudioAnalysis.BACKEND_URL.
  rewrite Hf, Hlie. step_handler.
  rewrite Hnet; cbn; rewrite Hok; cbn; rewrite Hjson; cbn.
  unfold AudioAnalysis.setResult, AudioAnalysis.setError, AudioAnalysis.setIsLoading; cbn.
  rewrite Hf. reflexivity.
Qed.

Lemma audio_success_witness :
  AudioAnalysis.file (analysed (recording "talk.mp3" "audio/mpeg" 4096) (stored truthful))
  = Some (recording "talk.mp3" "audio/mpeg" 4096)
  /\ AudioAnalysis.error
       (state (snd (AudioAnalysis.submit None
                      (service (answer 200 (Parsed truthful)) (Rejected ""))
                      (analysed (recording "talk.mp3" "audio/mpeg" 4096)
                                (stored truthful)))))
     = None.
Proof.
  split; [reflexivity|].
  rewrite (audio_success None (service (answer 200 (Parsed truthful)) (Rejected ""))
             (analysed (recording "talk.mp3" "audio/mpeg" 4096) (stored truthful))
             (recording "talk.mp3" "audio/mpeg" 4096)
             {| status := 200; json := Parsed truthful |} truthful
             eq_refl eq_refl eq_refl eq_refl eq_refl).
  reflexivity.
Defined.

(** The file input: a change event without files (a null or an empty list)
    changes nothing, and of several files only the first is looked at. *)
Theorem file_change_first_only (s : AudioAnalysis.t) :
  invoke (AudioAnalysis.handleFileChange None) s
  = (Normal tt, {| state := s; issued := [] |})
  /\ invoke (AudioAnalysis.handleFileChange (Some [])) s
     = (Normal tt, {| state := s; issued := [] |})
  /\ forall f others,
       invoke (AudioAnalysis.handleFileChange (Some (f :: others))) s
       = invoke (AudioAnalysis.handleFileChange (Some [f])) s.
Proof. repeat split. Qed.

(** The file of a state reached from the initial state by any sequence of
    file selections, removals and submissions passed the checks of the file
    input, and the loading flag is off. *)
Lemma audio_step_checked (env : option string) (s : AudioAnalysis.t) (ev : AudioEvent) :
  file_checked s /\ AudioAnalysis.isLoading s = false ->
  file_checked (audio_step env s ev)
  /\ AudioAnalysis.isLoading (audio_step env s ev) = false.
Proof.
  intros [Hc Hl]. destruct ev as [files| |network]; unfold audio_step.
  - unfold AudioAnalysis.handleFileChange, invoke.
    destruct files as [[|f others]|]; [cbn; auto| |cbn; auto].
    destruct (JS.startsWith (File.type f) "audio/") eqn:Ht; cbn [negb]; [|cbn; auto].
    destruct (File.size f >? 25 * 1024 * 1024) eqn:Hs; [cbn; auto|].
    cbn. split; [|exact Hl].
    intros g Hg. cbn in Hg. inversion Hg; subst g. split; [exact Ht|].
    rewrite Z.gtb_ltb in Hs. apply Z.ltb_ge in Hs. exact Hs.
  - cbn. split; [intros g Hg; discriminate | exact Hl].
  - unfold AudioAnalysis.submit, AudioAnalysis.handleSubmit, invoke,
      AudioAnalysis.BACKEND_URL.
    destruct (AudioAnalysis.file s) as [g|] eqn:Hf; [|cbn; split; [|exact Hl]].
    + assert (Hkeep : forall s', AudioAnalysis.file s' = AudioAnalysis.file s ->
                                 file_checked s')
        by (intros s' E g' Hg'; apply Hc; congruence).
      destruct (JS.endsWith _ _ && JS.includes _ _).
      * cbn. split; [apply Hkeep|]; reflexivity.
      * step_handler. split_run network; (split; [apply Hkeep|]; reflexivity).
    + intros g Hg. cbn in Hg. apply Hc. exact Hg.
Qed.

Theorem audio_session_checked (env : option string) (evs : list AudioEvent) :
  file_checked (audio_session env evs)
  /\ AudioAnalysis.isLoading (audio_session env evs) = false.
Proof.
  unfold audio_session.
  assert (H0 : file_checked AudioAnalysis.initial
               /\ AudioAnalysis.isLoading AudioAnalysis.initial = false)
    by (split; [intros g Hg; discriminate | reflexivity]).
  revert H0. generalize AudioAnalysis.initial.
  induction evs as [|ev evs IH]; intros s Hs; [exact Hs|].
  cbn. apply IH. now apply audio_step_checked.
Qed.

(* ================================================================== *)
(** ** Sessions of the text screens *)

(** One event keeps: an explanation is set only together with a result,
    and both loading flags are off. *)
Lemma text_step_consistent
    (c : Copy) (env : option string) (s : TextState.t) (ev : TextEvent) :
  (TextState.explanation s <> None -> TextState.result s <> None)
  /\ TextState.isLoading s = false /\ TextState.isExplaining s = false ->
  (TextState.explanation (text_step c env s ev) <> None ->
   TextState.result (text_step c env s ev) <> None)
  /\ TextState.isLoading (text_step c env s ev) = false
  /\ TextState.isExplaining (text_step c env s ev) = false.
Proof.
  intros (Hx & Hl & He).
  destruct ev as [v|x| |network].
  - destruct c; cbn; auto.
  - destruct c; cbn; repeat split; auto; intros H; now elim H.
  - destruct c; cbn; repeat split; auto; intros H; now elim H.
  - unfold text_step.
    replace (match c with TextAnalysis_tsx | _ => state (snd (text_submit c env network s)) end)
      with (state (snd (text_submit c env network s))) by (destruct c; reflexivity).
    destruct c; unfold text_submit, TextAnalysis.submit, TextAnalysisPage.submit,
      TextAnalysis.handleSubmit, TextAnalysisPage.handleSubmit, invoke,
      TextAnalysis.BACKEND_URL, TextAnalysisPage.BACKEND_URL;
      (destruct (JS.truthy (JS.trim (TextState.text s))); cbn; [|auto]);
      (destruct (JS.length (TextState.text s) <? 20); cbn; [auto|]);
      step_handler; split_run network;
      repeat split; auto; try discriminate; intros H; now elim H.
Qed.

(** In a state reached from the initial state by any sequence of edits,
    example choices, clears and submissions, an explanation is set only
    together with a result, and both loading flags are off. *)
Theorem text_session_consistent
    (c : Copy) (env : option string) (evs : list TextEvent) :
  (TextState.explanation (text_session c env evs) <> None ->
   TextState.result (text_session c env evs) <> None)
  /\ TextState.isLoading (text_session c env evs) = false
  /\ TextState.isExplaining (text_session c env evs) = false.
Proof.
  unfold text_session.
  assert (H0 : (TextState.explanation TextState.initial <> None ->
                TextState.result TextState.initial <> None)
               /\ TextState.isLoading TextState.initial = false
               /\ TextState.isExplaining TextState.initial = false)
    by (repeat split; intros H; now elim H).
  revert H0. generalize TextState.initial.
  induction evs as [|ev evs IH]; intros s Hs; [exact Hs|].
  cbn. apply IH. now apply text_step_consistent.
Qed.

(** When the submit button of a text screen is enabled, a submission is
    either accepted, or the text is blank and the submission sets the
    message for a blank text and issues no request: the message about 20
    characters is never the outcome of a click on the button. *)
Theorem text_button_gate
    (c : Copy) (env : option string) (network : Request -> Fetch) (s : TextState.t) :
  TextAnalysis.submitDisabled s = TextAnalysisPage.submitDisabled s
  /\ (TextAnalysis.submitDisabled s = false ->
      text_accepted (TextState.text s)
      \/ (whitespaceOnly (TextState.text s) = true
          /\ text_submit c env network s
             = (Normal tt,
                {| state := TextState.setError
                              (Some "Please enter some text to analyze") s;
                   issued := [] |}))).
Proof.
  split; [reflexivity|].
  unfold TextAnalysis.submitDisabled. intros H.
  apply orb_false_iff in H. destruct H as [_ Hl]. apply Z.ltb_ge in Hl.
  destruct (whitespaceOnly (TextState.text s)) eqn:Hw.
  - right. split; [reflexivity|].
    destruct c; unfold text_submit, TextAnalysis.submit, TextAnalysisPage.submit,
      TextAnalysis.handleSubmit, TextAnalysisPage.handleSubmit, invoke;
      rewrite trim_truthy, Hw; reflexivity.
  - left. split; assumption.
Qed.

Lemma text_button_gate_witness :
  TextAnalysis.submitDisabled (typed "                         ") = false
  /\ issued (snd (text_submit TextAnalysis_tsx None (service (Rejected "") (Rejected ""))
                    (typed "                         "))) = [].
Proof.
  split; [reflexivity|].
  destruct (proj2 (text_button_gate TextAnalysis_tsx None
                     (service (Rejected "") (Rejected ""))
                     (typed "                         ")) eq_refl)
    as [[Hw _] | [_ ->]]; [discriminate Hw | reflexivity].
Defined.

(** The example statements are the same in both copies, and each of them
    passes the checks: choosing an example and submitting issues the
    predict request for that example. *)
Theorem examples_accepted
    (c : Copy) (env : option string) (network : Request -> Fetch) (s : TextState.t)
    (x : string) :
  TextAnalysis.exampleStatements = TextAnalysisPage.examples
  /\ (In x TextAnalysis.exampleStatements ->
      text_accepted x
      /\ exists s0 later,
           issued (snd (text_submit c env network (text_step c env s (ExampleChosen x))))
           = (s0, predict_request env x) :: later).
Proof.
  split; [reflexivity|].
  intros Hin.
  assert (Hx : text_accepted x).
  { cbn in Hin. destruct Hin as [<-|[<-|[<-|[]]]];
      (split; vm_compute; [reflexivity | discriminate]). }
  split; [exact Hx|].
  assert (Ht : TextState.text (text_step c env s (ExampleChosen x)) = x)
    by (destruct c; reflexivity).
  destruct (text_first_request c env network (text_step c env s (ExampleChosen x)))
    as (s0 & later & Hi & _); [now rewrite Ht|].
  rewrite Ht in Hi. now exists s0, later.
Qed.

Lemma examples_accepted_witness :
  In statement TextAnalysis.exampleStatements /\ text_accepted statement.
Proof.
  assert (Hin : In statement TextAnalysis.exampleStatements) by (left; reflexivity).
  split; [exact Hin|].
  exact (proj1 (proj2 (examples_accepted TextAnalysis_tsx None
                         (service (Rejected "") (Rejected "")) TextState.initial
                         statement) Hin)).
Defined.

(** Editing after a result was shown.  In TextAnalysis.tsx typing and
    choosing an example change the text only, so what is displayed below
    the form (error, result, explanation) stays as it was.  In
    [TextAnalysisPage] typing clears the error and keeps the result, and
    choosing an example leaves nothing displayed. *)
Theorem editing_and_display (s : TextState.t) (v : string) :
  (state (snd (invoke (TextAnalysis.onChange v) s)) = TextState.setText v s
   /\ state (snd (invoke (TextAnalysis.onExampleClick v) s)) = TextState.setText v s
   /\ TextAnalysis.render (TextState.setText v s) = TextAnalysis.render s)
  /\ (state (snd (invoke (TextAnalysisPage.onChange v) s))
      = TextState.setError None (TextState.setText v s)
      /\ TextState.result (state (snd (invoke (TextAnalysisPage.onChange v) s)))
         = TextState.result s
      /\ TextAnalysisPage.render
           (state (snd (invoke (TextAnalysisPage.handleUseExample v) s)))
         = Some {| Screen.errorMessage := None;
                   Screen.predictionResult := None;
                   Screen.spinner := false;
                   Screen.explanationCard := None |}).
Proof. repeat split. Qed.

(* ================================================================== *)
(** ** The word count and the tabs *)

Lemma split_from_cons (after : bool) (s : string) :
  exists piece pieces, JS.split_from after s = piece :: pieces.
Proof.
  revert after. induction s as [|c s IH]; intros after; cbn.
  - now exists "", [].
  - destruct (JS.isWhiteSpace c).
    + destruct after; [apply IH|]. eexists; eexists; reflexivity.
    + destruct (IH false) as (p & ps & ->). eexists; eexists; reflexivity.
Qed.

(** The first piece is not empty exactly when the string starts with a
    character that is not white space. *)
Lemma split_from_head (s : string) (piece : string) (pieces : list string) :
  JS.split_from false s = piece :: pieces ->
  JS.truthy piece
  = match s with
    | EmptyString => false
    | String c _ => negb (JS.isWhiteSpace c)
    end.
Proof.
  destruct s as [|c s]; cbn.
  - intros H. inversion H. reflexivity.
  - destruct (JS.isWhiteSpace c).
    + intros H. inversion H. reflexivity.
    + destruct (split_from_cons false s) as (p & ps & ->).
      intros H. inversion H. reflexivity.
Qed.

Lemma runs_from_inside (s : string) :
  runs_from false s
  = ((match s with
      | EmptyString => 0
      | String c _ => if JS.isWhiteSpace c then 0 else 1
      end) + runs_from true s)%nat.
Proof.
  destruct s as [|c s]; cbn; [reflexivity|].
  destruct (JS.isWhiteSpace c); reflexivity.
Qed.

(** The pieces of a split that are not empty are the runs of characters
    that are not white space. *)
Lemma split_from_runs (after : bool) (s : string) :
  List.length (filter JS.truthy (JS.split_from after s)) = runs_from false s.
Proof.
  revert after. induction s as [|c s IH]; intros after; [reflexivity|].
  cbn [JS.split_from runs_from].
  destruct (JS.isWhiteSpace c) eqn:Hc.
  - destruct after; [apply IH|]. cbn. apply IH.
  - destruct (split_from_cons false s) as (p & ps & Hs).
    pose proof (IH false) as Hcount. rewrite Hs in *.
    pose proof (split_from_head s p ps Hs) as Hhead.
    rewrite runs_from_inside in Hcount.
    cbn [filter] in *. cbn [JS.truthy String.eqb negb].
    destruct s as [|d s]; cbn [List.length] in *.
    + rewrite Hhead in Hcount. cbn in *. now rewrite Hcount.
    + rewrite Hhead in Hcount. destruct (JS.isWhiteSpace d); cbn in *; lia.
Qed.

Lemma runs_trimStart (s : string) :
  runs_from false (JS.trimStart s) = runs_from false s.
Proof.
  induction s as [|c s IH]; [reflexivity|]. cbn.
  destruct (JS.isWhiteSpace c) eqn:Hc; [exact IH|]. cbn. now rewrite Hc.
Qed.

Lemma runs_blank (inside : bool) (s : string) :
  whitespaceOnly s = true -> runs_from inside s = 0%nat.
Proof.
  revert inside. induction s as [|c s IH]; intros inside H; [reflexivity|].
  cbn in *. apply andb_true_iff in H. destruct H as [Hc Hs].
  rewrite Hc. now apply IH.
Qed.

Lemma runs_trimEnd (inside : bool) (s : string) :
  runs_from inside (JS.trimEnd s) = runs_from inside s.
Proof.
  revert inside. induction s as [|c s IH]; intros inside; [reflexivity|].
  cbn [JS.trimEnd].
  destruct (JS.trimEnd s) as [|d t] eqn:Ht.
  - assert (Hs : whitespaceOnly s = true) by (now apply trimEnd_empty).
    destruct (JS.isWhiteSpace c) eqn:Hc; cbn; rewrite Hc.
    + symmetry. now apply runs_blank.
    + rewrite !(runs_blank _ s Hs). reflexivity.
  - assert (Hcons : forall i u,
               runs_from i (String c u)
               = if JS.isWhiteSpace c then runs_from false u
                 else if i then runs_from true u else S (runs_from true u))
      by reflexivity.
    rewrite !Hcons, !IH. reflexivity.
Qed.

Lemma words_blank (s : string) : words s = 0%nat <-> whitespaceOnly s = true.
Proof.
  unfold words. split; [|apply runs_blank].
  induction s as [|c s IH]; [reflexivity|]. cbn.
  destruct (JS.isWhiteSpace c); [exact IH | discriminate].
Qed.

(** The word count under the text area is, in both copies, the number of
    maximal runs of characters that are not white space; it is zero exactly
    for a blank text, which is the text the first check of [handleSubmit]
    refuses. *)
Theorem word_count_runs (text : string) :
  TextAnalysis.wordCount text = words text
  /\ TextAnalysisPage.wordCount text = words text
  /\ (TextAnalysis.wordCount text = 0%nat <-> JS.truthy (JS.trim text) = false).
Proof.
  assert (Hb : TextAnalysisPage.wordCount text = words text).
  { unfold TextAnalysisPage.wordCount, JS.split_whitespace, JS.trim, words.
    now rewrite split_from_runs, runs_trimEnd, runs_trimStart. }
  assert (Ha : TextAnalysis.wordCount text = TextAnalysisPage.wordCount text).
  { unfold TextAnalysis.wordCount, TextAnalysisPage.wordCount. f_equal.
    apply filter_ext. intros w. destruct w; reflexivity. }
  split; [congruence|]. split; [exact Hb|].
  rewrite Ha, Hb, words_blank, trim_truthy.
  destruct (whitespaceOnly text); cbn; split; congruence.
Qed.

(** At most one tab is drawn as active: the text tab for the path "/", the
    audio tab for "/audio", and none for any other path. *)
Theorem tabs_active (pathname : string) :
  TabNavigation.active pathname
  = if String.eqb pathname "/" then ["Text Analysis"]
    else if String.eqb pathname "/audio" then ["Audio Analysis"]
    else [].
Proof.
  unfold TabNavigation.active, TabNavigation.tabs, TabNavigation.isActive.
  cbn [filter TabNavigation.path].
  destruct (String.eqb_spec pathname "/") as [->|H1]; [reflexivity|].
  destruct (String.eqb pathname "/audio"); reflexivity.
Qed.

(** The condition of the fixture of the audio screen in words: the name in
    lower case ends with ".wav" and has "_lie_" somewhere; the case of the
    name does not matter. *)
Theorem fixture_condition (name : string) :
  (lie_fixture name = true <->
   (exists a, JS.toLowerCase name = a ++ ".wav")
   /\ exists a b, JS.toLowerCase name = a ++ "_lie_" ++ b)
  /\ lie_fixture (JS.toLowerCase name) = lie_fixture name.
Proof.
  unfold lie_fixture. split.
  - now rewrite andb_true_iff, endsWith_spec, includes_spec.
  - now rewrite toLowerCase_idempotent.
Qed.

(* ================================================================== *)
(** ** Errors are displayed *)

Ltac error_shown :=
  let e := fresh "e" in
  let He := fresh "He" in
  intros e He; cbn in He;
  first [ discriminate He
        | inversion He; subst; first [ reflexivity | apply or_truthy; reflexivity ] ].

Lemma text_step_error
    (c : Copy) (env : option string) (s : TextState.t) (ev : TextEvent) :
  (forall e, TextState.error s = Some e -> JS.truthy e = true) ->
  forall e, TextState.error (text_step c env s ev) = Some e -> JS.truthy e = true.
Proof.
  intros Hs.
  destruct ev as [v|x| |network].
  - destruct c; cbn; [exact Hs | intros e He; discriminate He].
  - destruct c; cbn; [exact Hs | intros e He; discriminate He].
  - destruct c; cbn; intros e He; discriminate He.
  - unfold text_step.
    replace (match c with TextAnalysis_tsx | _ => state (snd (text_submit c env network s)) end)
      with (state (snd (text_submit c env network s))) by (destruct c; reflexivity).
    destruct c; unfold text_submit, TextAnalysis.submit, TextAnalysisPage.submit,
      TextAnalysis.handleSubmit, TextAnalysisPage.handleSubmit, invoke,
      TextAnalysis.BACKEND_URL, TextAnalysisPage.BACKEND_URL;
      (destruct (JS.truthy (JS.trim (TextState.text s))); [|error_shown]);
      (destruct (JS.length (TextState.text s) <? 20); [error_shown|]);
      step_handler; split_run network; error_shown.
Qed.

Lemma audio_step_error (env : option string) (s : AudioAnalysis.t) (ev : AudioEvent) :
  (forall e, AudioAnalysis.error s = Some e -> JS.truthy e = true) ->
  forall e, AudioAnalysis.error (audio_step env s ev) = Some e -> JS.truthy e = true.
Proof.
  intros Hs. destruct ev as [files| |network]; unfold audio_step.
  - unfold AudioAnalysis.handleFileChange, invoke.
    destruct files as [[|f others]|]; [exact Hs| |exact Hs].
    destruct (JS.startsWith (File.type f) "audio/"); cbn [negb]; [|error_shown].
    destruct (File.size f >? 25 * 1024 * 1024); error_shown.
  - error_shown.
  - unfold AudioAnalysis.submit, AudioAnalysis.handleSubmit, invoke,
      AudioAnalysis.BACKEND_URL.
    destruct (AudioAnalysis.file s) as [g|]; [|error_shown].
    destruct (JS.endsWith _ _ && JS.includes _ _); [error_shown|].
    step_handler. split_run network; error_shown.
Qed.

(** In every state reached from the initial state of a screen, an error
    that is set is not the empty string: the error banner, drawn for a
    truthy error, shows every error that is set. *)
Theorem errors_are_shown (env : option string) :
  (forall c evs e,
      TextState.error (text_session c env evs) = Some e ->
      ErrorMessage (TextState.error (text_session c env evs)) = Some e)
  /\ (forall evs e,
         AudioAnalysis.error (audio_session env evs) = Some e ->
         ErrorMessage (AudioAnalysis.error (audio_session env evs)) = Some e).
Proof.
  split.
  - intros c evs e He. rewrite He. apply ErrorMessage_truthy.
    revert e He. unfold text_session.
    assert (H0 : forall e, TextState.error TextState.initial = Some e ->
                           JS.truthy e = true) by (intros e He; discriminate He).
    revert H0. generalize TextState.initial.
    induction evs as [|ev evs IH]; intros s Hs; [exact Hs|].
    cbn. apply IH. now apply text_step_error.
  - intros evs e He. rewrite He. apply ErrorMessage_truthy.
    revert e He. unfold audio_session.
    assert (H0 : forall e, AudioAnalysis.error AudioAnalysis.initial = Some e ->
                           JS.truthy e = true) by (intros e He; discriminate He).
    revert H0. generalize AudioAnalysis.initial.
    induction evs as [|ev evs IH]; intros s Hs; [exact Hs|].
    cbn. apply IH. now apply audio_step_error.
Qed.

Lemma errors_are_shown_witness :
  TextState.error
    (text_session TextAnalysis_tsx None
       [Typed "too short"; Submitted (service (Rejected "") (Rejected ""))])
  = Some "Please enter at least 20 characters for more accurate analysis"
  /\ ErrorMessage
       (TextState.error
          (text_session TextAnalysis_tsx None
             [Typed "too short"; Submitted (service (Rejected "") (Rejected ""))]))
     = Some "Please enter at least 20 characters for more accurate analysis".
Proof.
  assert (H : TextState.error
                (text_session TextAnalysis_tsx None
                   [Typed "too short"; Submitted (service (Rejected "") (Rejected ""))])
              = Some "Please enter at least 20 characters for more accurate analysis")
    by reflexivity.
  split; [exact H|].
  exact (proj1 (errors_are_shown None) TextAnalysis_tsx _ _ H).
Defined.

Lemma audio_session_checked_witness :
  AudioAnalysis.file
    (audio_session None
       [FilesChosen (Some [recording "talk.mp3" "audio/mpeg" 4096]);
        FilesChosen (Some [recording "notes.pdf" "application/pdf" 1000]);
        AudioSubmitted (service (Rejected "Failed to fetch") (Rejected ""))])
  = Some (recording "talk.mp3" "audio/mpeg" 4096)
  /\ JS.startsWith (File.type (recording "talk.mp3" "audio/mpeg" 4096)) "audio/" = true.
Proof.
  assert (H : AudioAnalysis.file
                (audio_session None
                   [FilesChosen (Some [recording "talk.mp3" "audio/mpeg" 4096]);
                    FilesChosen (Some [recording "notes.pdf" "application/pdf" 1000]);
                    AudioSubmitted (service (Rejected "Failed to fetch") (Rejected ""))])
              = Some (recording "talk.mp3" "audio/mpeg" 4096)) by reflexivity.
  split; [exact H|].
  exact (proj1 (proj1 (audio_session_checked None _) _ H)).
Defined.

Lemma text_session_consistent_witness :
  TextState.explanation
    (text_session TextAnalysisPage_tsx None
       [ExampleChosen statement;
        Submitted (service (answer 200 (Parsed truthful))
                           (answer 500 (SyntaxError "Unexpected token")))])
  <> None
  /\ TextState.result
       (text_session TextAnalysisPage_tsx None
          [ExampleChosen statement;
           Submitted (service (answer 200 (Parsed truthful))
                              (answer 500 (SyntaxError "Unexpected token")))])
     <> None.
Proof.
  assert (H : TextState.explanation
                (text_session TextAnalysisPage_tsx None
                   [ExampleChosen statement;
                    Submitted (service (answer 200 (Parsed truthful))
                                       (answer 500 (SyntaxError "Unexpected token")))])
              <> None) by (vm_compute; discriminate).
  split; [exact H|].
  exact (proj1 (text_session_consistent TextAnalysisPage_tsx None _) H).
Defined.
